(** * terraform/context.go: the Context and its graph-walk callbacks

    A shallow embedding of [src/terraform/context.go]: [NewContext],
    [Apply], [Plan], [Refresh], [computeVars], [applyWalkFn], [planWalkFn],
    [refreshWalkFn], [validateWalkFn], [genericWalkFn] and
    [computeAggregateVars].  [Validate], which walks a graph that may not
    have been built, and the run gate ([acquireRun], [releaseRun], [Stop]),
    which is concurrent, are not embedded.

    Go maps are finite maps ([gmap]); a map that the code only ranges over is
    a list in the order the runtime happens to iterate it.  Pointers that may
    be nil are [option]s.  A Go function that can [panic] returns an
    [outcome]; the mutations it made before the panic stay visible, so the
    mutable data it touches is threaded through a small state-and-panic
    monad.  The walk is sequential: the locks of the source are not
    modelled. *)

From Stdlib Require Import ZArith String Ascii List.
From stdpp Require Import base option list strings gmap fin_maps pretty.

Local Open Scope string_scope.
Local Open Scope Z_scope.

(** ** Errors and panics *)

Local Set Warnings "-register-all".

(** A Go [error].  [fmt.Errorf] yields a message; [multierror.Error] carries
    the list of the errors it aggregates. *)
Inductive error : Type :=
| Errorf (msg : string)
| MultiError (errs : list error).

(** The values the code passes to [panic], one constructor per site. *)
Inductive panic_value : Type :=
| PanicHalt                          (* panic(HookActionHalt), raised by handleHook *)
| PanicError (e : error)             (* panic(err), provider configuration *)
| PanicInterpolate (e : error)       (* panic("Interpolate error: " + err) *)
| PanicNonExistent (key : string)    (* "non-existent resource variable access" *)
| PanicUnknownNode                   (* "unknown graph node" *)
| PanicTypeAssertion                 (* failed .(string) assertion *)
| PanicNilDeref.                     (* nil pointer dereference *)

Inductive outcome (A : Type) : Type :=
| Returned (a : A)
| Panicked (v : panic_value).
Arguments Returned {A} a.
Arguments Panicked {A} v.

(** ** The state-and-panic monad *)

Definition M (S A : Type) : Type := S -> S * outcome A.

Definition ret {S A} (a : A) : M S A := fun s => (s, Returned a).

Definition bind {S A B} (m : M S A) (k : A -> M S B) : M S B :=
  fun s =>
    match m s with
    | (s', Returned a) => k a s'
    | (s', Panicked v) => (s', Panicked v)
    end.

Definition panic {S A} (v : panic_value) : M S A := fun s => (s, Panicked v).
Definition get {S} : M S S := fun s => (s, Returned s).
Definition put {S} (s : S) : M S unit := fun _ => (s, Returned tt).
Definition modify {S} (f : S -> S) : M S unit := fun s => (f s, Returned tt).

Notation "x <~ c ;; k" := (bind c (fun x => k))
  (at level 100, c at next level, right associativity).
Notation "c ;;; k" := (bind c (fun _ => k))
  (at level 100, right associativity).

(** ** Data model *)

(** [config.InterpolatedVariable]: a resource variable or a user variable.
    [rv_key] is the text of the reference, which [FullKey] returns. *)
Record ResourceVariable : Type := {
  rv_Type : string;
  rv_Name : string;
  rv_Field : string;
  rv_key : string
}.

Inductive InterpolatedVariable : Type :=
| IVResource (rv : ResourceVariable)
| IVUser (Name key : string).

(** Modelled from the spec: [config.ResourceVariable.ResourceId] and
    [FullKey], which live in the config package; the resource id is
    [type.name] and the full key is the canonical text of the reference. *)
Definition ResourceId (v : ResourceVariable) : string :=
  rv_Type v +:+ "." +:+ rv_Name v.

Definition FullKey (v : ResourceVariable) : string := rv_key v.

(** A value of the resolved view of a raw config ([interface{}]). *)
Inductive ConfigValue : Type :=
| CfgString (s : string)
| CfgOther.

(** [config.RawConfig]: the variable references (in iteration order) and the
    current resolved view returned by [Config()]. *)
Record RawConfig : Type := {
  Variables : list (string * InterpolatedVariable);
  Config : gmap string ConfigValue
}.

Inductive ResourceConfig : Type :=
| EmptyResourceConfig                   (* new(ResourceConfig) *)
| NewResourceConfig (raw : RawConfig).

Record ResourceState : Type := {
  rs_Type : string;
  rs_ID : string;
  rs_Attributes : gmap string string
}.

(** [new(ResourceState)] *)
Definition newResourceState : ResourceState :=
  {| rs_Type := ""; rs_ID := ""; rs_Attributes := ∅ |}.

Definition rs_set_Type (t : string) (rs : ResourceState) : ResourceState :=
  {| rs_Type := t; rs_ID := rs_ID rs; rs_Attributes := rs_Attributes rs |}.

Definition rs_set_Attributes (a : gmap string string) (rs : ResourceState)
  : ResourceState :=
  {| rs_Type := rs_Type rs; rs_ID := rs_ID rs; rs_Attributes := a |}.

Record ResourceAttrDiff : Type := {
  Old : string;
  New : string;
  NewComputed : bool;
  RequiresNew : bool
}.

Record ResourceDiff : Type := {
  rd_Destroy : bool;
  rd_Attributes : gmap string ResourceAttrDiff
}.

(** Modelled from the spec: [ResourceDiff.Empty], which lives in diff.go:
    true iff destroy is false and the attribute mapping is empty.  The
    receiver may be nil (planWalkFn calls it on a nil diff), and a nil diff
    is empty. *)
Definition Empty (d : option ResourceDiff) : bool :=
  match d with
  | None => true
  | Some d => negb (rd_Destroy d) && bool_decide (rd_Attributes d = ∅)
  end.

(** The provider capability interface.  Go's [(value, error)] results are
    pairs; the code looks at the error first. *)
Record ResourceProvider : Type := {
  rp_Configure : option ResourceConfig -> option error;
  rp_Diff : ResourceState -> option ResourceConfig ->
            option ResourceDiff * option error;
  rp_Apply : ResourceState -> option ResourceDiff ->
             option ResourceState * option error
}.

Inductive HookAction : Type := HookActionContinue | HookActionHalt.

(** The hook capability interface; the error a hook returns next to its
    verdict is ignored by [handleHook] and is left out. *)
Record Hook : Type := {
  PreApply : string -> ResourceState -> option ResourceDiff -> HookAction;
  PostApply : string -> ResourceState -> HookAction;
  PreDiff : string -> ResourceState -> HookAction;
  PostDiff : string -> option ResourceDiff -> HookAction
}.

(** The walker's runtime view of a resource. *)
Record Resource : Type := {
  r_Id : string;
  r_State : ResourceState;
  r_Config : option ResourceConfig;
  r_Diff : option ResourceDiff;
  r_Provider : ResourceProvider
}.

Definition r_set_State (s : ResourceState) (r : Resource) : Resource :=
  {| r_Id := r_Id r; r_State := s; r_Config := r_Config r;
     r_Diff := r_Diff r; r_Provider := r_Provider r |}.

Definition r_set_Config (c : option ResourceConfig) (r : Resource) : Resource :=
  {| r_Id := r_Id r; r_State := r_State r; r_Config := c;
     r_Diff := r_Diff r; r_Provider := r_Provider r |}.

(** [config.Resource] and [config.ProviderConfig], as far as the walk reads
    them: their raw config. *)
Record ConfigResource : Type := { cr_RawConfig : RawConfig }.
Record ProviderConfig : Type := { pc_RawConfig : RawConfig }.

Record GraphNodeResource : Type := {
  gr_Type : string;
  gr_Config : option ConfigResource;
  gr_Orphan : bool;
  gr_Resource : Resource
}.

Record GraphNodeResourceMeta : Type := {
  gm_ID : string;
  gm_Count : Z
}.

Record GraphNodeResourceProvider : Type := {
  gp_ID : string;
  gp_Providers : list (string * ResourceProvider);
  gp_Config : option ProviderConfig
}.

(** The dynamic type of [Noun.Meta]. *)
Inductive NounMeta : Type :=
| MetaResource (m : GraphNodeResource)
| MetaResourceMeta (m : GraphNodeResourceMeta)
| MetaResourceProvider (m : GraphNodeResourceProvider)
| MetaOther.

Record Noun : Type := {
  Name : string;
  Meta : NounMeta
}.

(** Modelled from the spec: the constant [GraphRootNode] of graph.go, the
    name of the root sentinel. *)
Definition GraphRootNode : string := "root".

Record State : Type := {
  Outputs : option (gmap string string);
  Resources : gmap string ResourceState
}.

(** Modelled from the spec: [State.init], which lives in state.go; it
    allocates the resource map of a fresh state. *)
Definition State_init : State := {| Outputs := None; Resources := ∅ |}.

Definition s_set_Resources (m : gmap string ResourceState) (s : State) : State :=
  {| Outputs := Outputs s; Resources := m |}.

Definition s_set_Outputs (o : option (gmap string string)) (s : State) : State :=
  {| Outputs := o; Resources := Resources s |}.

Record Diff : Type := { d_Resources : gmap string ResourceDiff }.

Record Output : Type := {
  o_Name : string;
  o_RawConfig : RawConfig
}.

(** [config.Config]; the resource and provider declarations are read by the
    graph builder only, which is a parameter below. *)
Record ConfigT : Type := {
  cfg_Outputs : list Output
}.

Record PlanT : Type := {
  p_Config : ConfigT;
  p_Vars : gmap string string;
  p_State : option State;
  p_Diff : option Diff
}.

Record PlanOpts : Type := { Destroy : bool }.

Record Context : Type := {
  c_config : ConfigT;
  c_diff : option Diff;
  c_hooks : list Hook;
  c_state : option State;
  c_providers : gmap string ResourceProvider;
  c_variables : gmap string string
}.

Definition c_set_state (s : option State) (c : Context) : Context :=
  {| c_config := c_config c; c_diff := c_diff c; c_hooks := c_hooks c;
     c_state := s; c_providers := c_providers c;
     c_variables := c_variables c |}.

Definition c_set_diff (d : option Diff) (c : Context) : Context :=
  {| c_config := c_config c; c_diff := d; c_hooks := c_hooks c;
     c_state := c_state c; c_providers := c_providers c;
     c_variables := c_variables c |}.

Record GraphOpts : Type := {
  go_Config : ConfigT;
  go_Diff : option Diff;
  go_Providers : gmap string ResourceProvider;
  go_State : option State
}.

(** ** Go library functions *)

(** [strings.Join] *)
Fixpoint strings_Join (elems : list string) (sep : string) : string :=
  match elems with
  | [] => ""
  | [x] => x
  | x :: rest => x +:+ sep +:+ strings_Join rest sep
  end.

(** ** computeAggregateVars *)

(** The key [fmt.Sprintf("%s.%s.%d.%s", rv.Type, rv.Name, i, field)]. *)
Definition indexKey (rv : ResourceVariable) (i : Z) (field : string) : string :=
  rv_Type rv +:+ "." +:+ rv_Name rv +:+ "." +:+ pretty i +:+ "." +:+ field.

(** The loop [for i := 0; i < count; i++] that collects [values]. *)
Definition collectValues (vs : gmap string string) (rv : ResourceVariable)
    (field : string) (count : Z) : list string :=
  foldl (fun values i =>
           match vs !! indexKey rv i field with
           | Some v => (values ++ [v])%list
           | None => values
           end)
        [] (seqZ 0 count).

(** The body of the loop over [ivars], for one variable. *)
Definition aggregateVar (cs : gmap string Z) (v : InterpolatedVariable)
  : M (gmap string string) unit :=
  match v with
  | IVUser _ _ => ret tt
  | IVResource rv =>
    match index 0 "." (rv_Field rv) with
    | None => ret tt                       (* it isn't an aggregated var *)
    | Some idx =>
      if negb (String.eqb (substring 0 idx (rv_Field rv)) "*") then ret tt
      else
        let field := substring (idx + 1)%nat
                       (String.length (rv_Field rv) - (idx + 1))%nat
                       (rv_Field rv) in
        let key := rv_Type rv +:+ "." +:+ rv_Name rv in
        match cs !! key with
        | None => panic (PanicNonExistent key)
        | Some count =>
          vs <~ get ;;
          let values := collectValues vs rv field count in
          put (<[FullKey rv := strings_Join values ","]> vs)
        end
    end
  end.

Fixpoint forEach {S A} (l : list A) (body : A -> M S unit) : M S unit :=
  match l with
  | [] => ret tt
  | a :: l' => body a ;;; forEach l' body
  end.

(** The variables a node's raw config refers to. *)
Definition nodeVariables (n : Noun) : list (string * InterpolatedVariable) :=
  match Meta n with
  | MetaResource m =>
    match gr_Config m with
    | Some c => Variables (cr_RawConfig c)
    | None => []
    end
  | MetaResourceProvider m =>
    match gp_Config m with
    | Some c => Variables (pc_RawConfig c)
    | None => []
    end
  | _ => []
  end.

Definition computeAggregateVars (n : Noun) (cs : gmap string Z)
  : M (gmap string string) unit :=
  forEach (nodeVariables n) (fun nv => aggregateVar cs (snd nv)).

(** ** The walk state *)

(** What the closure built by [genericWalkFn] captures: the variable store,
    the counts table, the stop flag, and the per-operation result that the
    callback writes to. *)
Record WalkSt (R : Type) : Type := {
  vars : gmap string string;
  counts : gmap string Z;
  stop : bool;
  result : R
}.
Arguments vars {R} _.
Arguments counts {R} _.
Arguments stop {R} _.
Arguments result {R} _.

Definition w_set_vars {R} (v : gmap string string) (w : WalkSt R) : WalkSt R :=
  {| vars := v; counts := counts w; stop := stop w; result := result w |}.

Definition w_set_counts {R} (cs : gmap string Z) (w : WalkSt R) : WalkSt R :=
  {| vars := vars w; counts := cs; stop := stop w; result := result w |}.

Definition w_set_stop {R} (b : bool) (w : WalkSt R) : WalkSt R :=
  {| vars := vars w; counts := counts w; stop := b; result := result w |}.

Definition w_set_result {R} (r : R) (w : WalkSt R) : WalkSt R :=
  {| vars := vars w; counts := counts w; stop := stop w; result := r |}.

(** [genericWalkFunc]: takes the resource and returns the variables it
    exports and an error; it is a closure over the result and may assign to
    the resource's fields. *)
Definition genericWalkFunc (R : Type) : Type :=
  M (Resource * R) (gmap string string * option error).

(** Modelled from the spec: [handleHook], which lives in hook.go; on a Halt
    verdict the dispatcher raises the distinguished halt signal. *)
Definition handleHook {S} (a : HookAction) : M S unit :=
  match a with
  | HookActionContinue => ret tt
  | HookActionHalt => panic PanicHalt
  end.

Definition destroyDiff : ResourceDiff :=
  {| rd_Destroy := true; rd_Attributes := ∅ |}.

Definition p_set_Diff (d : option Diff) (p : PlanT) : PlanT :=
  {| p_Config := p_Config p; p_Vars := p_Vars p; p_State := p_State p;
     p_Diff := d |}.

(** Modelled from the spec: [Plan.init], which lives in plan.go; it
    allocates the diff and the state of a plan that has none. *)
Definition Plan_init (p : PlanT) : PlanT :=
  {| p_Config := p_Config p; p_Vars := p_Vars p;
     p_State := Some (default State_init (p_State p));
     p_Diff := Some (default {| d_Resources := ∅ |} (p_Diff p)) |}.

(** Modelled from the spec: [depgraph.Graph.Walk], which lives in the
    depgraph package.  The graph is the list of its nouns in the order the
    walker visits them (leaves first); an error or a panic of the callback
    aborts the walk.  The nouns come back as the visits left them. *)
Fixpoint Walk {St} (fn : Noun -> St -> (Noun * St) * outcome (option error))
    (g : list Noun) (st : St) : (list Noun * St) * outcome (option error) :=
  match g with
  | [] => (([], st), Returned None)
  | n :: g' =>
    match fn n st with
    | ((n', st'), Returned None) =>
      match Walk fn g' st' with
      | ((g'', st''), o) => ((n' :: g'', st''), o)
      end
    | ((n', st'), o) => ((n' :: g', st'), o)
    end
  end.

(** [ContextOpts], the options of [NewContext]. *)
Record ContextOpts : Type := {
  co_Config : ConfigT;
  co_Diff : option Diff;
  co_Hooks : list Hook;
  co_State : option State;
  co_Providers : gmap string ResourceProvider;
  co_Variables : gmap string string
}.


(** * Concrete instances used by the examples *)

Module Ex.

Definition Unknown : string := "74D93920-ED26-11E3-AC10-0800200C9A66".

(** A small interpolation: every variable needs a binding, and a value that
    is exactly the reference [${name}] is replaced by the binding. *)
Definition Interpolate (raw : RawConfig) (vs : gmap string string)
  : RawConfig * option error :=
  match list_find (fun nv => vs !! fst nv = None) (Variables raw) with
  | Some (_, (n, _)) => (raw, Some (Errorf ("unknown variable: " +:+ n)))
  | None =>
    ({| Variables := Variables raw;
        Config :=
          (fun cv =>
             match cv with
             | CfgString s =>
               match list_find (fun nv => s = "${" +:+ fst nv +:+ "}")
                               (Variables raw) with
               | Some (_, (n, _)) => CfgString (default "" (vs !! n))
               | None => cv
               end
             | CfgOther => cv
             end) <$> Config raw |}, None)
  end.

(** The attributes of the state under [id.attribute]. *)
Definition Vars (r : Resource) : gmap string string :=
  map_fold (fun ak av acc => <[r_Id r +:+ "." +:+ ak := av]> acc) ∅
           (rs_Attributes (r_State r)).

(** The new value of every attribute of the diff, or the sentinel when it is
    computed. *)
Definition MergeDiff (rs : ResourceState) (d : option ResourceDiff)
  : ResourceState :=
  match d with
  | None => rs
  | Some d =>
    rs_set_Attributes
      (map_fold (fun k ad acc =>
                   <[k := if NewComputed ad then Unknown else New ad]> acc)
                (rs_Attributes rs) (rd_Attributes d))
      rs
  end.

(** A graph builder over fixed nouns: a resource node gets its state from
    the state and its diff from the diff. *)
Definition attach (opts : GraphOpts) (n : Noun) : Noun :=
  match Meta n with
  | MetaResource m =>
    let r := gr_Resource m in
    let st := default {| rs_Type := gr_Type m; rs_ID := ""; rs_Attributes := ∅ |}
                (go_State opts ≫= fun s => Resources s !! r_Id r) in
    let df := go_Diff opts ≫= fun d => d_Resources d !! r_Id r in
    {| Name := Name n;
       Meta := MetaResource
         {| gr_Type := gr_Type m; gr_Config := gr_Config m;
            gr_Orphan := gr_Orphan m;
            gr_Resource :=
              {| r_Id := r_Id r; r_State := st; r_Config := r_Config r;
                 r_Diff := df; r_Provider := r_Provider r |} |} |}
  | _ => n
  end.

Definition Graph (nouns : list Noun) (opts : GraphOpts)
  : list Noun * option error :=
  (attach opts <$> nouns, None).

Definition noHook : Hook :=
  {| PreApply := fun _ _ _ => HookActionContinue;
     PostApply := fun _ _ => HookActionContinue;
     PreDiff := fun _ _ => HookActionContinue;
     PostDiff := fun _ _ => HookActionContinue |}.


Definition attrDiff (old new : string) : ResourceAttrDiff :=
  {| Old := old; New := new; NewComputed := false; RequiresNew := false |}.

(** A provider that diffs to [d] and applies to [rs]. *)
Definition provider (d : option ResourceDiff) (rs : option ResourceState)
  : ResourceProvider :=
  {| rp_Configure := fun _ => None;
     rp_Diff := fun _ _ => (d, None);
     rp_Apply := fun _ _ => (rs, None) |}.

(** A provider whose Apply fails. *)
Definition failingProvider (d : option ResourceDiff) : ResourceProvider :=
  {| rp_Configure := fun _ => None;
     rp_Diff := fun _ _ => (d, None);
     rp_Apply := fun _ _ => (None, Some (Errorf "apply failed")) |}.

Definition amiDiff : ResourceDiff :=
  {| rd_Destroy := false;
     rd_Attributes := {[ "ami" := attrDiff "" "ami-123" ]} |}.

Definition rawOf (kvs : list (string * string)) : RawConfig :=
  {| Variables := [];
     Config := list_to_map (prod_map id CfgString <$> kvs) |}.

Definition resourceNoun (type name : string) (p : ResourceProvider) : Noun :=
  {| Name := type +:+ "." +:+ name;
     Meta := MetaResource
       {| gr_Type := type;
          gr_Config := Some {| cr_RawConfig := rawOf [("ami", "ami-123")] |};
          gr_Orphan := false;
          gr_Resource :=
            {| r_Id := type +:+ "." +:+ name;
               r_State := {| rs_Type := type; rs_ID := ""; rs_Attributes := ∅ |};
               r_Config := None; r_Diff := None; r_Provider := p |} |} |}.

Definition fooState : ResourceState :=
  {| rs_Type := "aws_instance"; rs_ID := "i-1";
     rs_Attributes := {[ "ami" := "ami-123" ]} |}.

Definition context (outs : list Output) (d : option Diff) (hs : list Hook)
    (s : option State) : Context :=
  {| c_config := {| cfg_Outputs := outs |}; c_diff := d; c_hooks := hs;
     c_state := s; c_providers := ∅; c_variables := ∅ |}.

(** Two resources: [foo] applies, [bar] fails in the provider. *)
Definition twoNouns : list Noun :=
  [ resourceNoun "aws_instance" "foo" (provider (Some amiDiff) (Some fooState));
    resourceNoun "aws_instance" "bar" (failingProvider (Some amiDiff)) ].

Definition twoDiff : Diff :=
  {| d_Resources := {[ "aws_instance.foo" := amiDiff;
                       "aws_instance.bar" := amiDiff ]} |}.

(** A prior state with one resource, and a context for Apply over it. *)
Definition oldState : ResourceState :=
  {| rs_Type := "aws_instance"; rs_ID := "i-0"; rs_Attributes := ∅ |}.

Definition prior1 : State :=
  {| Outputs := None; Resources := {[ "aws_instance.old" := oldState ]} |}.

Definition c1 : Context := context [] (Some twoDiff) [noHook] (Some prior1).

(** A state as a provider may return it, with an attribute it left unknown. *)
Definition unknownState (id : string) : ResourceState :=
  {| rs_Type := ""; rs_ID := id;
     rs_Attributes := {[ "foo" := Unknown; "bar" := "1" ]} |}.

Definition fooResource (d : option ResourceDiff) (p : ResourceProvider)
  : Resource :=
  {| r_Id := "aws_instance.foo";
     r_State := {| rs_Type := "aws_instance"; rs_ID := ""; rs_Attributes := ∅ |};
     r_Config := Some EmptyResourceConfig; r_Diff := d; r_Provider := p |}.

Definition cPlain : Context := context [] None [noHook] None.

(** A prior state whose only resource has an empty ID, as Refresh leaves it
    when the provider reports that the resource is gone. *)
Definition goneState : ResourceState :=
  {| rs_Type := "aws_instance"; rs_ID := ""; rs_Attributes := ∅ |}.

Definition priorGone : State :=
  {| Outputs := None; Resources := {[ "aws_instance.foo" := goneState ]} |}.

Definition fooNouns : list Noun :=
  [ resourceNoun "aws_instance" "foo" (provider (Some amiDiff) (Some fooState)) ].

(** The diff of the Context holds an empty diff for [foo]: nothing to do. *)
Definition nothingDiff : Diff :=
  {| d_Resources := {[ "aws_instance.foo" :=
                         {| rd_Destroy := false; rd_Attributes := ∅ |} ]} |}.

Definition cGone : Context :=
  context [] (Some nothingDiff) [noHook] (Some priorGone).

(** An output that refers to [aws_instance.foo.<field>]. *)
Definition fooVariable (field : string) : ResourceVariable :=
  {| rv_Type := "aws_instance"; rv_Name := "foo"; rv_Field := field;
     rv_key := "aws_instance.foo." +:+ field |}.

Definition fooOutput (name field : string) : Output :=
  {| o_Name := name;
     o_RawConfig :=
       {| Variables := [("aws_instance.foo." +:+ field,
                         IVResource (fooVariable field))];
          Config := {[ "value" :=
                         CfgString ("${aws_instance.foo." +:+ field +:+ "}") ]} |} |}.

Definition fooDiff : Diff :=
  {| d_Resources := {[ "aws_instance.foo" := amiDiff ]} |}.


(** Apply of [foo] with two outputs; the second refers to an attribute that
    [foo] does not have. *)
Definition cOutputs : Context :=
  context [fooOutput "ami" "ami"; fooOutput "bad" "missing"] (Some fooDiff)
          [noHook] None.

(** A provider node whose configuration refers to a user variable. *)
Definition providerConfig : ProviderConfig :=
  {| pc_RawConfig :=
       {| Variables := [("var.region", IVUser "region" "var.region")];
          Config := {[ "region" := CfgString "${var.region}" ]} |} |}.

Definition providerMeta : GraphNodeResourceProvider :=
  {| gp_ID := "aws";
     gp_Providers := [("aws", provider None None)];
     gp_Config := Some providerConfig |}.

Definition providerNoun : Noun :=
  {| Name := "provider.aws"; Meta := MetaResourceProvider providerMeta |}.

(** The node of [foo] as the graph builder attaches the diff to it. *)
Definition fooMeta : GraphNodeResource :=
  {| gr_Type := "aws_instance";
     gr_Config := Some {| cr_RawConfig := rawOf [("ami", "ami-123")] |};
     gr_Orphan := false;
     gr_Resource :=
       {| r_Id := "aws_instance.foo";
          r_State := {| rs_Type := "aws_instance"; rs_ID := "";
                        rs_Attributes := ∅ |};
          r_Config := None; r_Diff := Some amiDiff;
          r_Provider := provider (Some amiDiff) (Some fooState) |} |}.

Definition fooNoun : Noun :=
  {| Name := "aws_instance.foo"; Meta := MetaResource fooMeta |}.

(** A provider whose Diff fails. *)
Definition failingDiffProvider : ResourceProvider :=
  {| rp_Configure := fun _ => None;
     rp_Diff := fun _ _ => (None, Some (Errorf "diff failed"));
     rp_Apply := fun _ _ => (None, None) |}.

Definition planNouns : list Noun :=
  [ resourceNoun "aws_instance" "foo" (provider (Some amiDiff) (Some fooState));
    resourceNoun "aws_instance" "bar" failingDiffProvider ].

Definition oldDiff : Diff :=
  {| d_Resources := {[ "aws_instance.old" := {| rd_Destroy := true;
                                                 rd_Attributes := ∅ |} ]} |}.

Definition cPlan : Context := context [] (Some oldDiff) [noHook] None.

(** A counted resource and the store after two of its three instances have
    exported their id. *)
Definition webVariable : ResourceVariable :=
  {| rv_Type := "aws_instance"; rv_Name := "web"; rv_Field := "*.id";
     rv_key := "aws_instance.web.*.id" |}.

Definition webCounts : gmap string Z := {[ "aws_instance.web" := 3 ]}.

Definition webStore : gmap string string :=
  {[ "aws_instance.web.0.id" := "i-1"; "aws_instance.web.2.id" := "i-3" ]}.

(** The remaining methods of the interfaces. *)
Definition refreshNil (p : ResourceProvider) (rs : ResourceState)
  : option ResourceState * option error := (None, None).

Definition hookContinue (h : Hook) (id : string) (rs : ResourceState)
  : HookAction := HookActionContinue.

Definition validateNothing (p : ResourceProvider) (rc : option ResourceConfig)
  : list string * list error := ([], []).

Definition validateResource (p : ResourceProvider) (type : string)
    (rc : option ResourceConfig) : list string * list error :=
  (["ami is deprecated"], [Errorf "ami is required"]).

Definition providerNil (r : Resource) : bool := false.

Definition errorString (e : error) : string :=
  match e with
  | Errorf msg => msg
  | MultiError _ => "errors occurred"
  end.

(** A load balancer whose configuration refers to the ids of all instances
    of [aws_instance.web]. *)
Definition elbMeta : GraphNodeResource :=
  {| gr_Type := "aws_elb";
     gr_Config := Some
       {| cr_RawConfig :=
            {| Variables := [("aws_instance.web.*.id", IVResource webVariable)];
               Config := {[ "members" :=
                              CfgString "${aws_instance.web.*.id}" ]} |} |};
     gr_Orphan := false;
     gr_Resource :=
       {| r_Id := "aws_elb.e";
          r_State := {| rs_Type := "aws_elb"; rs_ID := "";
                        rs_Attributes := ∅ |};
          r_Config := None; r_Diff := None;
          r_Provider := provider None None |} |}.

Definition elbNoun : Noun :=
  {| Name := "aws_elb.e"; Meta := MetaResource elbMeta |}.

Definition webMeta : GraphNodeResourceMeta :=
  {| gm_ID := "aws_instance.web"; gm_Count := 3 |}.

Definition webMetaNoun : Noun :=
  {| Name := "aws_instance.web (meta)"; Meta := MetaResourceMeta webMeta |}.

Definition webWalk : WalkSt State :=
  {| vars := webStore; counts := ∅; stop := false; result := State_init |}.

(** A resource of the state that the configuration no longer declares. *)
Definition orphanMeta : GraphNodeResource :=
  {| gr_Type := "aws_instance";
     gr_Config := None;
     gr_Orphan := true;
     gr_Resource :=
       {| r_Id := "aws_instance.x";
          r_State := {| rs_Type := "aws_instance"; rs_ID := "i-9";
                        rs_Attributes := ∅ |};
          r_Config := Some EmptyResourceConfig; r_Diff := None;
          r_Provider := provider (Some amiDiff) None |} |}.

Definition orphanNoun : Noun :=
  {| Name := "aws_instance.x"; Meta := MetaResource orphanMeta |}.

(** The node of [bar], whose provider fails in Apply. *)
Definition barMeta : GraphNodeResource :=
  {| gr_Type := "aws_instance";
     gr_Config := Some {| cr_RawConfig := rawOf [("ami", "ami-123")] |};
     gr_Orphan := false;
     gr_Resource :=
       {| r_Id := "aws_instance.bar";
          r_State := {| rs_Type := "aws_instance"; rs_ID := "";
                        rs_Attributes := ∅ |};
          r_Config := None; r_Diff := Some amiDiff;
          r_Provider := failingProvider (Some amiDiff) |} |}.

Definition barNoun : Noun :=
  {| Name := "aws_instance.bar"; Meta := MetaResource barMeta |}.

(** A state that holds [foo], and a Context over it. *)
Definition fooOnly : State :=
  {| Outputs := None; Resources := {[ "aws_instance.foo" := fooState ]} |}.

Definition cFoo : Context := context [] None [noHook] (Some fooOnly).

(** A provider node without configuration whose second provider fails to
    configure. *)
Definition failingConfigure : ResourceProvider :=
  {| rp_Configure := fun _ => Some (Errorf "no credentials");
     rp_Diff := fun _ _ => (None, None);
     rp_Apply := fun _ _ => (None, None) |}.

Definition twoProvidersMeta : GraphNodeResourceProvider :=
  {| gp_ID := "aws";
     gp_Providers := [("aws", provider None None);
                      ("aws.west", failingConfigure);
                      ("aws.east", provider None None)];
     gp_Config := None |}.

Definition twoProvidersNoun : Noun :=
  {| Name := "provider.aws"; Meta := MetaResourceProvider twoProvidersMeta |}.

Definition opts1 : ContextOpts :=
  {| co_Config := {| cfg_Outputs := [] |}; co_Diff := Some fooDiff;
     co_Hooks := [noHook]; co_State := None; co_Providers := ∅;
     co_Variables := ∅ |}.

End Ex.
Section Context.

(** [config.UnknownVariableValue], the unknown-value sentinel. *)
Variable UnknownVariableValue : string.

(** [RawConfig.Interpolate]: re-resolves the raw config with the bindings. *)
Variable Interpolate : RawConfig -> gmap string string -> RawConfig * option error.

(** [Resource.Vars]: the variables a resource exports. *)
Variable Vars : Resource -> gmap string string.

(** [ResourceState.MergeDiff]: the hypothetical post-apply state. *)
Variable MergeDiff : ResourceState -> option ResourceDiff -> ResourceState.

(** [Graph]: the graph builder. *)
Variable Graph : GraphOpts -> list Noun * option error.

(** *** applyWalkFn *)

(** Lines 366-375: the scan of the returned attributes. *)
Definition scrubUnknown (rs : ResourceState) : list error * ResourceState :=
  foldl (fun acc kv =>
           if decide (snd kv = UnknownVariableValue) then
             ((fst acc ++ [Errorf ("Attribute with unknown value: " +:+ fst kv)])%list,
              rs_set_Attributes (delete (fst kv) (rs_Attributes (snd acc))) (snd acc))
           else acc)
        ([], rs) (map_to_list (rs_Attributes rs)).

(** Lines 377-384: the update of the result under the lock. *)
Definition installResult (id : string) (rs : ResourceState) (result : State)
  : State :=
  if decide (rs_ID rs = "") then
    s_set_Resources (delete id (Resources result)) result
  else
    s_set_Resources (<[id := rs]> (Resources result)) result.

Definition applyCb (c : Context) : genericWalkFunc State :=
  st <~ get ;;
  let r := fst st in
  let diff := r_Diff r in
  if Empty diff then ret (Vars r, None)
  else
    match diff with
    | None => panic PanicNilDeref
    | Some d =>
      let '(diff, err) :=
        if negb (rd_Destroy d)
        then rp_Diff (r_Provider r) (r_State r) (r_Config r)
        else (diff, None) in
      match err with
      | Some e => ret (∅, Some e)
      | None =>
        forEach (c_hooks c)
          (fun h => handleHook (PreApply h (r_Id r) (r_State r) diff)) ;;;
        let '(rs, err) := rp_Apply (r_Provider r) (r_State r) diff in
        match err with
        | Some e => ret (∅, Some e)
        | None =>
          let rs := default newResourceState rs in
          let rs := rs_set_Type (rs_Type (r_State r)) rs in
          let '(errs, rs) := scrubUnknown rs in
          modify (fun st => (fst st, installResult (r_Id r) rs (snd st))) ;;;
          modify (fun st => (r_set_State rs (fst st), snd st)) ;;;
          st <~ get ;;
          let r := fst st in
          forEach (c_hooks c)
            (fun h => handleHook (PostApply h (r_Id r) (r_State r))) ;;;
          let err := match errs with
                     | [] => None
                     | _ => Some (MultiError errs)
                     end in
          ret (Vars r, err)
        end
      end
    end.

(** *** planWalkFn *)

(** Lines 423-444: how the diff of a node is determined. *)
Definition planDiff (opts : PlanOpts) (r : Resource)
  : option ResourceDiff * option error :=
  if Destroy opts then
    if decide (rs_ID (r_State r) = "") then (None, None)
    else (Some destroyDiff, None)
  else
    match r_Config r with
    | None => (Some destroyDiff, None)
    | Some _ => rp_Diff (r_Provider r) (r_State r) (r_Config r)
    end.

(** [result.Diff.Resources[r.Id] = diff]; a nil diff is Empty and never gets
    here. *)
Definition recordDiff (id : string) (diff : option ResourceDiff)
  : M (Resource * PlanT) unit :=
  st <~ get ;;
  match p_Diff (snd st), diff with
  | Some df, Some d =>
    put (fst st,
         p_set_Diff (Some {| d_Resources := <[id := d]> (d_Resources df) |})
                    (snd st))
  | _, _ => panic PanicNilDeref
  end.

Definition planCb (c : Context) (opts : PlanOpts) : genericWalkFunc PlanT :=
  st <~ get ;;
  let r := fst st in
  forEach (c_hooks c) (fun h => handleHook (PreDiff h (r_Id r) (r_State r))) ;;;
  let '(diff, err) := planDiff opts r in
  match err with
  | Some e => ret (∅, Some e)
  | None =>
    (if negb (Empty diff) then recordDiff (r_Id r) diff else ret tt) ;;;
    forEach (c_hooks c) (fun h => handleHook (PostDiff h (r_Id r) diff)) ;;;
    (if negb (Empty diff)
     then modify (fun st => (r_set_State (MergeDiff (r_State r) diff) (fst st),
                             snd st))
     else ret tt) ;;;
    st <~ get ;;
    ret (Vars (fst st), None)
  end.

(** *** genericWalkFn *)

(** Lines 562-571: the closure's variables when the walk function is made. *)
Definition walkInit {R} (invars : gmap string string) (res : R) : WalkSt R :=
  {| vars := map_fold (fun k v acc => <["var." +:+ k := v]> acc) ∅ invars;
     counts := ∅;
     stop := false;
     result := res |}.

(** Lines 607-613: configure every provider of the node. *)
Fixpoint configureAll (ps : list (string * ResourceProvider))
    (rc : option ResourceConfig) : option error :=
  match ps with
  | [] => None
  | (_, p) :: ps' =>
    match rp_Configure p rc with
    | Some e => Some e
    | None => configureAll ps' rc
    end
  end.

Definition gr_set (cfg : option ConfigResource) (r : Resource)
    (m : GraphNodeResource) : GraphNodeResource :=
  {| gr_Type := gr_Type m; gr_Config := cfg; gr_Orphan := gr_Orphan m;
     gr_Resource := r |}.

Definition gp_set_Config (cfg : option ProviderConfig)
    (m : GraphNodeResourceProvider) : GraphNodeResourceProvider :=
  {| gp_ID := gp_ID m; gp_Providers := gp_Providers m; gp_Config := cfg |}.

Definition n_set_Meta (m : NounMeta) (n : Noun) : Noun :=
  {| Name := Name n; Meta := m |}.

(** Lines 622-644: interpolate the node's raw config and make sure that some
    resource configuration is set.  The result is the node as left by these
    lines, or the error of the interpolation. *)
Definition prepareResource (vs : gmap string string) (rn : GraphNodeResource)
  : GraphNodeResource * option error :=
  let '(rn, err) :=
    match gr_Config rn with
    | Some cfg =>
      if decide (vs = ∅) then (rn, None)
      else
        let '(raw, err) := Interpolate (cr_RawConfig cfg) vs in
        let rn := gr_set (Some {| cr_RawConfig := raw |}) (gr_Resource rn) rn in
        match err with
        | Some e => (rn, Some e)
        | None =>
          (gr_set (gr_Config rn) (r_set_Config None (gr_Resource rn)) rn, None)
        end
    | None => (rn, None)
    end in
  match err with
  | Some e => (rn, Some e)
  | None =>
    let r := gr_Resource rn in
    let r :=
      if negb (gr_Orphan rn) then
        match r_Config r with
        | None =>
          match gr_Config rn with
          | None => r_set_Config (Some EmptyResourceConfig) r
          | Some cfg => r_set_Config (Some (NewResourceConfig (cr_RawConfig cfg))) r
          end
        | Some _ => r
        end
      else r_set_Config None r in
    (gr_set (gr_Config rn) r rn, None)
  end.

Definition genericWalkFn {R} (cb : genericWalkFunc R) (n : Noun) (w : WalkSt R)
  : (Noun * WalkSt R) * outcome (option error) :=
  (* If it is the root node, ignore *)
  if decide (Name n = GraphRootNode) then ((n, w), Returned None)
  (* If we're stopped, return right away *)
  else if stop w then ((n, w), Returned None)
  else
    match computeAggregateVars n (counts w) (vars w) with
    | (vs, Panicked v) => ((n, w_set_vars vs w), Panicked v)
    | (vs, Returned _) =>
      let w := w_set_vars vs w in
      match Meta n with
      | MetaResourceMeta m =>
        ((n, w_set_counts (<[gm_ID m := gm_Count m]> (counts w)) w),
         Returned None)
      | MetaResourceProvider m =>
        match gp_Config m with
        | Some cfg =>
          let '(raw, err) := Interpolate (pc_RawConfig cfg) (vars w) in
          let n := n_set_Meta (MetaResourceProvider
                     (gp_set_Config (Some {| pc_RawConfig := raw |}) m)) n in
          match err with
          | Some e => ((n, w), Panicked (PanicError e))
          | None =>
            ((n, w),
             Returned (configureAll (gp_Providers m)
                         (Some (NewResourceConfig raw))))
          end
        | None => ((n, w), Returned (configureAll (gp_Providers m) None))
        end
      | MetaOther => ((n, w), Panicked PanicUnknownNode)
      | MetaResource rn =>
        match prepareResource (vars w) rn with
        | (rn, Some e) =>
          ((n_set_Meta (MetaResource rn) n, w), Panicked (PanicInterpolate e))
        | (rn, None) =>
          match cb (gr_Resource rn, result w) with
          | ((r, res), o) =>
            let n := n_set_Meta (MetaResource (gr_set (gr_Config rn) r rn)) n in
            let w := w_set_result res w in
            match o with
            | Panicked PanicHalt => ((n, w_set_stop true w), Returned None)
            | Panicked v => ((n, w), Panicked v)
            | Returned (_, Some e) => ((n, w), Returned (Some e))
            | Returned (newVars, None) =>
              ((n, w_set_vars (newVars ∪ vars w) w), Returned None)
            end
          end
        end
      end
    end.

Definition applyWalkFn (c : Context) := genericWalkFn (applyCb c).

Definition planWalkFn (c : Context) (opts : option PlanOpts) :=
  genericWalkFn (planCb c (default {| Destroy := false |} opts)).

(** *** computeVars *)

Fixpoint computeVarsLoop (c : Context) (s : State)
    (ivars : list (string * InterpolatedVariable)) (vs : gmap string string)
  : gmap string string * option error :=
  match ivars with
  | [] => (vs, None)
  | (n, IVResource v) :: rest =>
    match Resources s !! ResourceId v with
    | None =>
      (vs, Some (Errorf ("Resource '" +:+ ResourceId v +:+
                         "' not found for variable '" +:+ FullKey v +:+ "'")))
    | Some r =>
      match rs_Attributes r !! rv_Field v with
      | None =>
        (vs, Some (Errorf ("Resource '" +:+ ResourceId v +:+
                           "' does not have attribute '" +:+ rv_Field v +:+
                           "' for variable '" +:+ FullKey v +:+ "'")))
      | Some attr => computeVarsLoop c s rest (<[n := attr]> vs)
      end
    end
  | (n, IVUser name _) :: rest =>
    computeVarsLoop c s rest (<[n := default "" (c_variables c !! name)]> vs)
  end.

Definition computeVars (c : Context) (s : State) (raw : RawConfig)
  : RawConfig * option error :=
  match Variables raw with
  | [] => (raw, None)
  | ivars =>
    match computeVarsLoop c s ivars ∅ with
    | (_, Some e) => (raw, Some e)
    | (vs, None) => Interpolate raw vs
    end
  end.

(** *** Apply *)

(** Lines 94-100: the fresh result with the prior resources copied in. *)
Definition applyStart (c : Context) : State :=
  let s := State_init in
  match c_state c with
  | Some prior =>
    s_set_Resources
      (map_fold (fun k v acc => <[k := v]> acc) (Resources s) (Resources prior))
      s
  | None => s
  end.

(** Lines 111-117: the loop over the outputs; the state is [s]. *)
Fixpoint computeOutputs (c : Context) (outs : list Output)
  : M State (option error) :=
  match outs with
  | [] => ret None
  | o :: rest =>
    s <~ get ;;
    match computeVars c s (o_RawConfig o) with
    | (_, Some e) => ret (Some e)
    | (raw, None) =>
      match Config raw !! "value" with
      | Some (CfgString v) =>
        match Outputs s with
        | Some m => put (s_set_Outputs (Some (<[o_Name o := v]> m)) s)
        | None => panic PanicNilDeref
        end ;;;
        computeOutputs c rest
      | _ => panic PanicTypeAssertion
      end
    end
  end.

Definition applyGraphOpts (c : Context) : GraphOpts :=
  {| go_Config := c_config c; go_Diff := c_diff c;
     go_Providers := c_providers c; go_State := c_state c |}.

(** The walk of Apply on a graph: the result after the walk and what the
    walk returned. *)
Definition applyWalk (c : Context) (g : list Noun)
  : (list Noun * WalkSt State) * outcome (option error) :=
  Walk (applyWalkFn c) g (walkInit (c_variables c) (applyStart c)).

(** [c.state] and the returned [s] are one pointer: the model writes the
    final value of [s] to both.  A panic before line 106 leaves [c.state]
    as it was. *)
Definition Apply (c : Context)
  : Context * outcome (option State * option error) :=
  match Graph (applyGraphOpts c) with
  | (_, Some e) => (c, Returned (None, Some e))
  | (g, None) =>
    match applyWalk c g with
    | (_, Panicked v) => (c, Panicked v)
    | ((_, w), Returned err) =>
      let s := result w in
      match err, cfg_Outputs (c_config c) with
      | None, (_ :: _) as outs =>
        match computeOutputs c outs (s_set_Outputs (Some ∅) s) with
        | (s, Returned err) => (c_set_state (Some s) c, Returned (Some s, err))
        | (s, Panicked v) => (c_set_state (Some s) c, Panicked v)
        end
      | _, _ => (c_set_state (Some s) c, Returned (Some s, err))
      end
    end
  end.

(** *** Plan *)

Definition planGraphOpts (c : Context) : GraphOpts :=
  {| go_Config := c_config c; go_Diff := None;
     go_Providers := c_providers c; go_State := c_state c |}.

Definition planStart (c : Context) : PlanT :=
  Plan_init {| p_Config := c_config c; p_Vars := c_variables c;
               p_State := c_state c; p_Diff := None |}.

Definition planWalk (c : Context) (opts : option PlanOpts) (g : list Noun)
  : (list Noun * WalkSt PlanT) * outcome (option error) :=
  Walk (planWalkFn c opts) g (walkInit (c_variables c) (planStart c)).

Definition Plan (c : Context) (opts : option PlanOpts)
  : Context * outcome (option PlanT * option error) :=
  match Graph (planGraphOpts c) with
  | (_, Some e) => (c, Returned (None, Some e))
  | (g, None) =>
    match planWalk c opts g with
    | (_, Panicked v) => (c, Panicked v)
    | ((_, w), Returned err) =>
      let p := result w in
      (c_set_diff (p_Diff p) c, Returned (Some p, err))
    end
  end.



(** *** refreshWalkFn and Refresh *)

(** The [Refresh] method of the provider interface and the refresh events of
    the hook interface, as functions of the provider and of the hook. *)
Variable rp_Refresh :
  ResourceProvider -> ResourceState -> option ResourceState * option error.
Variable PreRefresh : Hook -> string -> ResourceState -> HookAction.
Variable PostRefresh : Hook -> string -> ResourceState -> HookAction.

Definition refreshCb (c : Context) : genericWalkFunc State :=
  st <~ get ;;
  let r := fst st in
  forEach (c_hooks c)
    (fun h => handleHook (PreRefresh h (r_Id r) (r_State r))) ;;;
  let '(rs, err) := rp_Refresh (r_Provider r) (r_State r) in
  match err with
  | Some e => ret (∅, Some e)
  | None =>
    let rs := default newResourceState rs in
    (* Fix the type to be the type we have *)
    let rs := rs_set_Type (rs_Type (r_State r)) rs in
    modify (fun st =>
              (fst st,
               s_set_Resources (<[r_Id r := rs]> (Resources (snd st))) (snd st))) ;;;
    forEach (c_hooks c) (fun h => handleHook (PostRefresh h (r_Id r) rs)) ;;;
    ret (∅, None)
  end.

Definition refreshWalkFn (c : Context) := genericWalkFn (refreshCb c).

Definition refreshGraphOpts (c : Context) : GraphOpts :=
  {| go_Config := c_config c; go_Diff := None;
     go_Providers := c_providers c; go_State := c_state c |}.

Definition refreshWalk (c : Context) (g : list Noun)
  : (list Noun * WalkSt State) * outcome (option error) :=
  Walk (refreshWalkFn c) g (walkInit (c_variables c) State_init).

Definition Refresh (c : Context)
  : Context * outcome (option State * option error) :=
  match Graph (refreshGraphOpts c) with
  | (_, Some e) => (c, Returned (c_state c, Some e))
  | (g, None) =>
    match refreshWalk c g with
    | (_, Panicked v) => (c, Panicked v)
    | ((_, w), Returned err) =>
      (c_set_state (Some (result w)) c, Returned (Some (result w), err))
    end
  end.

(** *** validateWalkFn *)

(** The [Validate] and [ValidateResource] methods of the provider interface,
    whether the provider of a resource is nil, and the [Error] method of an
    error. *)
Variable rp_Validate :
  ResourceProvider -> option ResourceConfig -> list string * list error.
Variable rp_ValidateResource :
  ResourceProvider -> string -> option ResourceConfig ->
  list string * list error.
Variable providerIsNil : Resource -> bool.
Variable ErrorString : error -> string.

(** Lines 537-549: the body of the loop over the providers of a node. *)
Definition validateProvider (rc : option ResourceConfig)
    (acc : list string * list error) (kp : string * ResourceProvider)
  : list string * list error :=
  let '(ws, es) := rp_Validate (snd kp) rc in
  let ws := (fun w => "Provider '" +:+ fst kp +:+ "' warning: " +:+ w) <$> ws in
  let es := (fun e => Errorf ("Provider '" +:+ fst kp +:+ "' error: " +:+
                              ErrorString e)) <$> es in
  ((fst acc ++ ws)%list, (snd acc ++ es)%list).

(** The walk function; its state is the pair of the lists that [rws] and
    [res] point to.  The resource of a resource node is never nil here, so
    the panic of line 510 does not arise. *)
Definition validateWalkFn (n : Noun) (acc : list string * list error)
  : (Noun * (list string * list error)) * outcome (option error) :=
  if decide (Name n = GraphRootNode) then ((n, acc), Returned None)
  else
    match Meta n with
    | MetaResource rn =>
      let r := gr_Resource rn in
      if providerIsNil r then ((n, acc), Returned None)
      else
        let '(ws, es) :=
          rp_ValidateResource (r_Provider r) (gr_Type rn) (r_Config r) in
        let ws := (fun w => "'" +:+ r_Id r +:+ "' warning: " +:+ w) <$> ws in
        let es := (fun e => Errorf ("'" +:+ r_Id r +:+ "' error: " +:+
                                    ErrorString e)) <$> es in
        ((n, ((fst acc ++ ws)%list, (snd acc ++ es)%list)), Returned None)
    | MetaResourceProvider rn =>
      match gp_Config rn with
      | None => ((n, acc), Returned None)
      | Some cfg =>
        let rc := Some (NewResourceConfig (pc_RawConfig cfg)) in
        ((n, foldl (validateProvider rc) acc (gp_Providers rn)), Returned None)
      end
    | _ => ((n, acc), Returned None)
    end.

(** *** NewContext *)

(** Modelled from the spec: the [stopHook] of hook_stop.go, the system hook
    that owns the stop flag and returns Halt at every event when the flag is
    armed. *)
Definition stopHook (armed : bool) : Hook :=
  let verdict := if armed then HookActionHalt else HookActionContinue in
  {| PreApply := fun _ _ _ => verdict;
     PostApply := fun _ _ => verdict;
     PreDiff := fun _ _ => verdict;
     PostDiff := fun _ _ => verdict |}.

(** Lines 58-60: a slice one longer than the hooks of the options, the hooks
    copied into it, the stop hook in the last slot. *)
Definition copyHooks (hs : list Hook) (sh : Hook) : list (option Hook) :=
  let hooks := replicate (length hs + 1) None in      (* make *)
  let hooks := list_inserts 0 (Some <$> hs) hooks in  (* copy *)
  <[length hs := Some sh]> hooks.

(** [sh] is the stop hook that the context owns. *)
Definition NewContext (opts : ContextOpts) (sh : Hook) : Context :=
  {| c_config := co_Config opts;
     c_diff := co_Diff opts;
     c_hooks := omap id (copyHooks (co_Hooks opts) sh);
     c_state := co_State opts;
     c_providers := co_Providers opts;
     c_variables := co_Variables opts |}.
(** ** Definitions that state the properties

    The words of the specification, next to the code they are compared
    with. *)

(** The claim's words: the per-index values [TYPE.NAME.i.FIELD] present in
    the store, for [i] from [0] to [count - 1], in increasing index order,
    the absent ones skipped. *)
Definition presentValues (vs : gmap string string) (rv : ResourceVariable)
    (field : string) (count : Z) : list string :=
  omap (fun i : nat => vs !! indexKey rv (Z.of_nat i) field)
       (seq 0 (Z.to_nat count)).


(** The error recorded for an attribute whose value is the sentinel. *)
Definition unknownErr (ak : string) : error :=
  Errorf ("Attribute with unknown value: " +:+ ak).

(** The multi-error a callback returns for the errors it accumulated. *)
Definition multiErr (errs : list error) : option error :=
  match errs with
  | [] => None
  | _ => Some (MultiError errs)
  end.

(** A resource id of [s] that maps to a state with an empty ID maps to the
    same state in the prior state [prior]. *)
Definition emptyIDsFrom (prior : option State) (s : State) : Prop :=
  forall id rs,
    Resources s !! id = Some rs -> rs_ID rs = "" ->
    (prior ≫= fun p => Resources p !! id) = Some rs.

(** No resource id of [s] maps to a state with an empty ID. *)
Definition noEmptyID (s : State) : Prop :=
  forall id rs, Resources s !! id = Some rs -> rs_ID rs <> "".

(** The claim's words for the diff of a node visited during Plan: a
    destroy-only diff if the Destroy option is set and the state has a
    non-empty ID; otherwise a destroy-only diff if the resource has no Config;
    otherwise what the provider's Diff returns. *)
Definition planDiff_spec (opts : PlanOpts) (r : Resource)
  : option ResourceDiff * option error :=
  if Destroy opts && negb (bool_decide (rs_ID (r_State r) = ""))
  then (Some destroyDiff, None)
  else match r_Config r with
       | None => (Some destroyDiff, None)
       | Some _ => rp_Diff (r_Provider r) (r_State r) (r_Config r)
       end.

(** The plan after a node has recorded [diff] under [id], when it is not
    empty. *)
Definition recorded (id : string) (diff : option ResourceDiff) (p : PlanT)
  : PlanT :=
  match diff, p_Diff p with
  | Some d, Some df =>
    if Empty diff then p
    else p_set_Diff (Some {| d_Resources := <[id := d]> (d_Resources df) |}) p
  | _, _ => p
  end.

(** The resource after a node has merged [diff] into its state, when it is
    not empty. *)
Definition merged (diff : option ResourceDiff) (r : Resource) : Resource :=
  if Empty diff then r else r_set_State (MergeDiff (r_State r) diff) r.



(** A variable that [computeVars] can bind against the resources of [s]: a
    user variable, or a resource variable whose resource and attribute are
    there. *)
Definition bindable (s : State) (iv : InterpolatedVariable) : Prop :=
  match iv with
  | IVUser _ _ => True
  | IVResource v =>
    exists r attr, Resources s !! ResourceId v = Some r /\
                   rs_Attributes r !! rv_Field v = Some attr
  end.

(** The nodes of a graph that are resource nodes with the given id. *)
Definition resourceNodeOf (g : list Noun) (id : string) : Prop :=
  exists n rn, n ∈ g /\ Meta n = MetaResource rn /\ r_Id (gr_Resource rn) = id.

(** What [computeVars] binds a variable to: the value of a user variable
    among the variables of the Context, and the empty string when it has
    none; the attribute of a resource variable in the resources of [s]. *)
Definition bindingOf (c : Context) (s : State) (iv : InterpolatedVariable)
  : string :=
  match iv with
  | IVUser name _ => default "" (c_variables c !! name)
  | IVResource v =>
    default "" (Resources s !! ResourceId v
                ≫= fun r => rs_Attributes r !! rv_Field v)
  end.

(** The bindings of a list of variables, bound in order. *)
Definition bindingsOf (c : Context) (s : State)
    (ivars : list (string * InterpolatedVariable)) (vs : gmap string string)
  : gmap string string :=
  foldl (fun m nv => <[fst nv := bindingOf c s (snd nv)]> m) vs ivars.
(** * Properties *)

(** ** Go string slicing *)

Lemma substring_all (s : string) : substring 0 (String.length s) s = s.
Proof. induction s as [|a s IH]; simpl; [done | by rewrite IH]. Qed.

Lemma index_star_dot (field : string) :
  index 0 "." ("*." +:+ field) = Some 1%nat.
Proof. destruct field; reflexivity. Qed.

Lemma slice_star (field : string) :
  negb (String.eqb (substring 0 1 ("*." +:+ field)) "*") = false.
Proof. reflexivity. Qed.

Lemma slice_field (field : string) :
  substring (1 + 1) (String.length ("*." +:+ field) - (1 + 1)) ("*." +:+ field)
  = field.
Proof.
  change ("*." +:+ field) with (String "*" (String "." field)).
  simpl. rewrite Nat.sub_0_r. apply substring_all.
Qed.

(** ** Aggregate variables *)

Lemma foldl_collect {A B} (g : A -> option B) (l : list A) (acc : list B) :
  foldl (fun values i =>
           match g i with
           | Some v => (values ++ [v])%list
           | None => values
           end) acc l
  = (acc ++ omap g l)%list.
Proof.
  revert acc. induction l as [|a l IH]; intros acc; simpl.
  - by rewrite app_nil_r.
  - rewrite IH. destruct (g a); [by rewrite <- app_assoc | done].
Qed.

Lemma omap_fmap_pointwise {A B C} (f : A -> B) (g : B -> option C)
    (h : A -> option C) (l : list A) :
  (forall a, g (f a) = h a) -> omap g (f <$> l) = omap h l.
Proof.
  intros Hgh. induction l as [|a l IH]; csimpl; [done |].
  rewrite Hgh, IH. done.
Qed.

Lemma collectValues_present vs rv field count :
  collectValues vs rv field count = presentValues vs rv field count.
Proof.
  unfold collectValues, presentValues, seqZ.
  rewrite (foldl_collect (fun i => vs !! indexKey rv i field)).
  rewrite app_nil_l.
  apply omap_fmap_pointwise. intros i. by rewrite Z.add_0_r.
Qed.




(** ** Hooks *)

Lemma forEach_handleHook_cases {S} (hs : list Hook) (f : Hook -> HookAction)
    (s : S) :
  forEach hs (fun h => handleHook (f h)) s = (s, Returned tt) \/
  forEach hs (fun h => handleHook (f h)) s = (s, Panicked PanicHalt).
Proof.
  induction hs as [|h hs IH]; simpl; [by left |].
  unfold bind, handleHook. destruct (f h); simpl; [apply IH | by right].
Qed.

Lemma forEach_handleHook_continue {S} (hs : list Hook)
    (f : Hook -> HookAction) (s : S) :
  Forall (fun h => f h = HookActionContinue) hs ->
  forEach hs (fun h => handleHook (f h)) s = (s, Returned tt).
Proof.
  induction 1 as [|h hs Hh _ IH]; simpl; [done |].
  unfold bind, handleHook. by rewrite Hh.
Qed.

Lemma forEach_handleHook_halt {S} (hs : list Hook) (f : Hook -> HookAction)
    (s : S) :
  Exists (fun h => f h = HookActionHalt) hs ->
  forEach hs (fun h => handleHook (f h)) s = (s, Panicked PanicHalt).
Proof.
  induction hs as [|h hs IH]; intros Hex; [by apply Exists_nil in Hex |].
  simpl. unfold bind, handleHook.
  destruct (f h) eqn:Hf; simpl; [|done].
  apply Exists_cons in Hex as [Hh | Hex]; [congruence | by apply IH].
Qed.

(** ** The scan for unknown values *)

Lemma rs_set_Attributes_twice a b rs :
  rs_set_Attributes a (rs_set_Attributes b rs) = rs_set_Attributes a rs.
Proof. done. Qed.

Lemma rs_set_Attributes_same rs : rs_set_Attributes (rs_Attributes rs) rs = rs.
Proof. by destruct rs. Qed.

(** The scan, as a filter for the errors and a fold of deletions for the
    attributes. *)
Lemma scrub_fold (l : list (string * string)) (errs : list error)
    (rs : ResourceState) :
  foldl (fun acc kv =>
           if decide (snd kv = UnknownVariableValue) then
             ((fst acc ++ [Errorf ("Attribute with unknown value: " +:+ fst kv)])%list,
              rs_set_Attributes (delete (fst kv) (rs_Attributes (snd acc))) (snd acc))
           else acc)
        (errs, rs) l
  = ((errs ++ ((fun kv => unknownErr (fst kv)) <$>
               filter (fun kv => snd kv = UnknownVariableValue) l))%list,
     rs_set_Attributes
       (foldl (fun m kv => if decide (snd kv = UnknownVariableValue)
                           then delete (fst kv) m else m)
              (rs_Attributes rs) l) rs).
Proof.
  revert errs rs. induction l as [|kv l IH]; intros errs rs; simpl.
  - by rewrite app_nil_r, rs_set_Attributes_same.
  - rewrite filter_cons. destruct (decide (snd kv = UnknownVariableValue)).
    + rewrite IH. simpl. rewrite rs_set_Attributes_twice.
      by rewrite <- app_assoc.
    + by rewrite IH.
Qed.

Lemma fold_delete_lookup (l : list (string * string)) (m : gmap string string)
    (k : string) :
  foldl (fun m kv => if decide (snd kv = UnknownVariableValue)
                     then delete (fst kv) m else m) m l !! k
  = if decide ((k, UnknownVariableValue) ∈ l) then None else m !! k.
Proof.
  revert m. induction l as [|[k' v'] l IH]; intros m.
  - cbn [foldl].
    destruct (decide ((k, UnknownVariableValue) ∈ [])) as [Hin|];
      [by apply elem_of_nil in Hin | done].
  - cbn [foldl fst snd]. rewrite IH.
    destruct (decide ((k, UnknownVariableValue) ∈ l)) as [Hin|Hin].
    + case_decide as Hin'; [done |]. exfalso. apply Hin'. by right.
    + destruct (decide (v' = UnknownVariableValue)) as [->|Hv].
      * destruct (decide (k' = k)) as [->|Hk].
        -- rewrite lookup_delete_eq.
           case_decide as Hin'; [done |]. exfalso. apply Hin'. by left.
        -- rewrite lookup_delete_ne by done.
           case_decide as Hin'; [|done].
           apply elem_of_cons in Hin' as [Heq|?]; [congruence | done].
      * case_decide as Hin'; [|done].
        apply elem_of_cons in Hin' as [Heq|?]; [congruence | done].
Qed.

Lemma scrubUnknown_errs (rs : ResourceState) :
  fst (scrubUnknown rs)
  = (fun kv => unknownErr (fst kv)) <$>
    filter (fun kv => snd kv = UnknownVariableValue)
           (map_to_list (rs_Attributes rs)).
Proof. unfold scrubUnknown. by rewrite scrub_fold. Qed.

Lemma scrubUnknown_attrs (rs : ResourceState) (k : string) :
  rs_Attributes (snd (scrubUnknown rs)) !! k
  = match rs_Attributes rs !! k with
    | Some v => if decide (v = UnknownVariableValue) then None else Some v
    | None => None
    end.
Proof.
  unfold scrubUnknown. rewrite scrub_fold. simpl. rewrite fold_delete_lookup.
  destruct (decide _) as [Hin|Hin].
  - apply elem_of_map_to_list in Hin. rewrite Hin. by rewrite decide_True.
  - destruct (rs_Attributes rs !! k) as [v|] eqn:Hk; [|done].
    destruct (decide (v = UnknownVariableValue)) as [->|]; [|done].
    by apply elem_of_map_to_list in Hk.
Qed.

Lemma scrubUnknown_ID (rs : ResourceState) :
  rs_ID (snd (scrubUnknown rs)) = rs_ID rs /\
  rs_Type (snd (scrubUnknown rs)) = rs_Type rs.
Proof. unfold scrubUnknown. by rewrite scrub_fold. Qed.

Lemma elem_of_scrubUnknown_errs (rs : ResourceState) (e : error) :
  e ∈ fst (scrubUnknown rs) <->
  exists k, rs_Attributes rs !! k = Some UnknownVariableValue /\
            e = unknownErr k.
Proof.
  rewrite scrubUnknown_errs, list_elem_of_fmap. split.
  - intros ([k v] & -> & [Hv Hin]%list_elem_of_filter). simpl in *. subst v.
    exists k. by apply elem_of_map_to_list in Hin.
  - intros (k & Hk & ->). exists (k, UnknownVariableValue). split; [done |].
    apply list_elem_of_filter. split; [done | by apply elem_of_map_to_list].
Qed.

Lemma unknownErr_inj (k1 k2 : string) : unknownErr k1 = unknownErr k2 -> k1 = k2.
Proof.
  unfold unknownErr. intros Heq. injection Heq as Heq.
  by apply (inj (String.append _)) in Heq.
Qed.

Lemma NoDup_scrubUnknown_errs (rs : ResourceState) :
  NoDup (fst (scrubUnknown rs)).
Proof.
  rewrite scrubUnknown_errs. apply NoDup_fmap_2_strong.
  - intros [k1 v1] [k2 v2] [Hv1 Hin1]%list_elem_of_filter
      [Hv2 Hin2]%list_elem_of_filter Heq%unknownErr_inj.
    simpl in *. by subst.
  - apply NoDup_filter, NoDup_map_to_list.
Qed.

(** ** The update of the result *)

Lemma installResult_lookup (id : string) (rs : ResourceState) (s : State) :
  Resources (installResult id rs s) !! id
  = if decide (rs_ID rs = "") then None else Some rs.
Proof.
  unfold installResult. destruct (decide (rs_ID rs = "")); simpl.
  - apply lookup_delete_eq.
  - apply lookup_insert_eq.
Qed.

Lemma installResult_lookup_ne (id id' : string) (rs : ResourceState)
    (s : State) :
  id <> id' ->
  Resources (installResult id rs s) !! id' = Resources s !! id'.
Proof.
  intros Hne. unfold installResult. destruct (decide (rs_ID rs = "")); simpl.
  - by apply lookup_delete_ne.
  - by apply lookup_insert_ne.
Qed.

(** The apply callback from the point where the provider has returned. *)
Lemma applyCb_applied (c : Context) (r : Resource) (result : State)
    (d : ResourceDiff) (diff : option ResourceDiff)
    (rs0 : option ResourceState) :
  r_Diff r = Some d ->
  Empty (Some d) = false ->
  (if negb (rd_Destroy d)
   then rp_Diff (r_Provider r) (r_State r) (r_Config r)
   else (Some d, None)) = (diff, None) ->
  Forall (fun h => PreApply h (r_Id r) (r_State r) diff = HookActionContinue)
         (c_hooks c) ->
  rp_Apply (r_Provider r) (r_State r) diff = (rs0, None) ->
  let rs' := snd (scrubUnknown (rs_set_Type (rs_Type (r_State r))
                                  (default newResourceState rs0))) in
  let errs := fst (scrubUnknown (rs_set_Type (rs_Type (r_State r))
                                   (default newResourceState rs0))) in
  applyCb c (r, result)
  = match forEach (c_hooks c)
            (fun h => handleHook (PostApply h (r_Id r) rs'))
            (r_set_State rs' r, installResult (r_Id r) rs' result) with
    | (st, Returned _) =>
      (st, Returned (Vars (r_set_State rs' r), multiErr errs))
    | (st, Panicked v) => (st, Panicked v)
    end.
Proof.
  intros Hd He Hdiff Hpre Happly rs' errs.
  unfold applyCb, bind at 1, get at 1. simpl.
  rewrite Hd, He, Hdiff.
  unfold bind at 1.
  rewrite (forEach_handleHook_continue (c_hooks c)
             (fun h => PreApply h (r_Id r) (r_State r) diff)) by done.
  rewrite Happly.
  destruct (scrubUnknown _) as [errs0 rs0'] eqn:Hs. subst rs' errs. simpl.
  unfold bind, modify, get. simpl.
  by destruct (forEach_handleHook_cases (c_hooks c)
              (fun h => PostApply h (r_Id r) rs0')
              (r_set_State rs0' r, installResult (r_Id r) rs0' result))
      as [-> | ->].
Qed.

(** What the apply callback leaves under the resource id, once the provider
    has returned a state. *)
Lemma applyCb_installs (c : Context) (r : Resource)
    (result : State) (d : ResourceDiff) (diff : option ResourceDiff)
    (rs0 : option ResourceState) :
  r_Diff r = Some d ->
  Empty (Some d) = false ->
  (if negb (rd_Destroy d)
   then rp_Diff (r_Provider r) (r_State r) (r_Config r)
   else (Some d, None)) = (diff, None) ->
  Forall (fun h => PreApply h (r_Id r) (r_State r) diff = HookActionContinue)
         (c_hooks c) ->
  rp_Apply (r_Provider r) (r_State r) diff = (rs0, None) ->
  let rs' := snd (scrubUnknown (rs_set_Type (rs_Type (r_State r))
                                  (default newResourceState rs0))) in
  rs_ID rs' = rs_ID (rs_set_Type (rs_Type (r_State r))
                       (default newResourceState rs0))
  /\ Resources (snd (fst (applyCb c (r, result)))) !! r_Id r
     = (if decide (rs_ID rs' = "") then None else Some rs').
Proof.
  intros Hd He Hdiff Hpre Happly rs'.
  split; [apply scrubUnknown_ID |].
  rewrite (applyCb_applied c r result d diff rs0 Hd He Hdiff Hpre Happly).
  fold rs'.
  destruct (forEach_handleHook_cases (c_hooks c)
              (fun h => PostApply h (r_Id r) rs')
              (r_set_State rs' r, installResult (r_Id r) rs' result))
    as [-> | ->]; simpl; apply installResult_lookup.
Qed.

(** C2 (amended): after the provider's Apply has returned a state, every
    attribute whose value is the unknown-value sentinel is removed from it and
    reported by one error "Attribute with unknown value: <key>"; the other
    attributes and the ID are kept; the multi-error of these errors is what
    the callback returns when no PostApply hook halts it; the cleaned state
    becomes the resource's state, and in the result it is installed under the
    resource id when its ID is non-empty and the resource id is removed when
    its ID is empty. *)
Theorem C2_unknown_attributes_scrubbed (c : Context) (r : Resource)
    (result : State) (d : ResourceDiff) (diff : option ResourceDiff)
    (rs0 : option ResourceState) :
  r_Diff r = Some d ->
  Empty (Some d) = false ->
  (if negb (rd_Destroy d)
   then rp_Diff (r_Provider r) (r_State r) (r_Config r)
   else (Some d, None)) = (diff, None) ->
  Forall (fun h => PreApply h (r_Id r) (r_State r) diff = HookActionContinue)
         (c_hooks c) ->
  rp_Apply (r_Provider r) (r_State r) diff = (rs0, None) ->
  let rs := rs_set_Type (rs_Type (r_State r)) (default newResourceState rs0) in
  let errs := fst (scrubUnknown rs) in
  let rs' := snd (scrubUnknown rs) in
  (forall k, rs_Attributes rs !! k = Some UnknownVariableValue ->
             rs_Attributes rs' !! k = None /\ unknownErr k ∈ errs)
  /\ (forall k v, rs_Attributes rs !! k = Some v -> v <> UnknownVariableValue ->
                  rs_Attributes rs' !! k = Some v)
  /\ (forall e, e ∈ errs ->
                exists k, rs_Attributes rs !! k = Some UnknownVariableValue /\
                          e = unknownErr k)
  /\ NoDup errs
  /\ rs_ID rs' = rs_ID rs
  /\ fst (applyCb c (r, result))
     = (r_set_State rs' r, installResult (r_Id r) rs' result)
  /\ Resources (snd (fst (applyCb c (r, result)))) !! r_Id r
     = (if decide (rs_ID rs' = "") then None else Some rs')
  /\ (Forall (fun h => PostApply h (r_Id r) rs' = HookActionContinue)
             (c_hooks c) ->
      snd (applyCb c (r, result))
      = Returned (Vars (r_set_State rs' r), multiErr errs)).
Proof.
  intros Hd He Hdiff Hpre Happly rs errs rs'.
  pose proof (applyCb_applied c r result d diff rs0 Hd He Hdiff Hpre Happly)
    as Hcb. fold rs in Hcb. fold rs' in Hcb. fold errs in Hcb.
  assert (fst (applyCb c (r, result))
          = (r_set_State rs' r, installResult (r_Id r) rs' result)) as Hfst.
  { rewrite Hcb.
    by destruct (forEach_handleHook_cases (c_hooks c)
                   (fun h => PostApply h (r_Id r) rs')
                   (r_set_State rs' r, installResult (r_Id r) rs' result))
      as [-> | ->]. }
  repeat split.
  - subst rs'. rewrite scrubUnknown_attrs, H. by rewrite decide_True.
  - apply elem_of_scrubUnknown_errs. eauto.
  - intros k v Hk Hv. subst rs'. rewrite scrubUnknown_attrs, Hk.
    by rewrite decide_False.
  - intros e He'. by apply elem_of_scrubUnknown_errs.
  - apply NoDup_scrubUnknown_errs.
  - apply scrubUnknown_ID.
  - done.
  - rewrite Hfst. simpl. apply installResult_lookup.
  - intros Hpost. rewrite Hcb.
    by rewrite (forEach_handleHook_continue (c_hooks c)
                  (fun h => PostApply h (r_Id r) rs')).
Qed.

(** ** Invariants of the walk *)

Lemma Walk_invariant {St} (P : St -> Prop)
    (fn : Noun -> St -> (Noun * St) * outcome (option error))
    (g : list Noun) (st : St) :
  (forall n st, P st -> P (snd (fst (fn n st)))) ->
  P st -> P (snd (fst (Walk fn g st))).
Proof.
  intros Hfn. revert st. induction g as [|n g IH]; intros st Hst; [done |].
  simpl. specialize (Hfn n st Hst).
  destruct (fn n st) as [[n' st'] [[e|]|v]]; simpl in *; try done.
  specialize (IH st' Hfn). by destruct (Walk fn g st') as [[g'' st''] o].
Qed.

Lemma genericWalkFn_result_invariant {R} (P : R -> Prop)
    (cb : genericWalkFunc R) (n : Noun) (w : WalkSt R) :
  (forall r res, P res -> P (snd (fst (cb (r, res))))) ->
  P (result w) -> P (result (snd (fst (genericWalkFn cb n w)))).
Proof.
  intros Hcb Hw. unfold genericWalkFn.
  destruct (decide (Name n = GraphRootNode)); [done |].
  destruct (stop w); [done |].
  destruct (computeAggregateVars n (counts w) (vars w)) as [vs [[]|v]];
    [|done].
  destruct (Meta n) as [rn|m|m|]; try done.
  - destruct (prepareResource (vars (w_set_vars vs w)) rn) as [rn' [e|]];
      [done |].
    specialize (Hcb (gr_Resource rn') (result (w_set_vars vs w)) Hw).
    destruct (cb (gr_Resource rn', result (w_set_vars vs w)))
      as [[r res] [[nv [e|]]|[]]]; done.
  - destruct (gp_Config m) as [cfg|]; [|done].
    by destruct (Interpolate (pc_RawConfig cfg) (vars (w_set_vars vs w)))
      as [raw [e|]].
Qed.

Lemma applyCb_result_cases (c : Context) (r : Resource) (res : State) :
  snd (fst (applyCb c (r, res))) = res \/
  exists rs, snd (fst (applyCb c (r, res))) = installResult (r_Id r) rs res.
Proof.
  remember (applyCb c (r, res)) as out eqn:Hout.
  unfold applyCb, bind at 1, get at 1 in Hout. simpl in Hout.
  destruct (Empty (r_Diff r)); [subst out; by left |].
  destruct (r_Diff r) as [d|]; [|subst out; by left].
  destruct (if negb (rd_Destroy d) then _ else _) as [diff [e|]];
    [subst out; by left |].
  unfold bind at 1 in Hout.
  destruct (forEach_handleHook_cases (c_hooks c)
              (fun h => PreApply h (r_Id r) (r_State r) diff) (r, res))
    as [Hpre | Hpre]; rewrite Hpre in Hout; [|subst out; by left].
  destruct (rp_Apply (r_Provider r) (r_State r) diff) as [rs0 [e|]];
    [subst out; by left |].
  destruct (scrubUnknown _) as [errs rs'].
  right. exists rs'. unfold bind, modify, get in Hout. simpl in Hout.
  destruct (forEach_handleHook_cases (c_hooks c)
              (fun h => PostApply h (r_Id r) rs')
              (r_set_State rs' r, installResult (r_Id r) rs' res))
    as [Hpost | Hpost]; rewrite Hpost in Hout; by subst out.
Qed.

Lemma applyStart_Resources (c : Context) :
  Resources (applyStart c)
  = match c_state c with
    | Some prior => Resources prior
    | None => ∅
    end.
Proof.
  unfold applyStart. destruct (c_state c) as [prior|]; [|done]. simpl.
  apply (map_fold_weak_ind (fun acc m => acc = m)); [done |].
  by intros k v m acc _ ->.
Qed.


Lemma computeOutputs_Resources (c : Context) (outs : list Output) (s : State) :
  Resources (fst (computeOutputs c outs s)) = Resources s.
Proof.
  revert s. induction outs as [|o outs IH]; intros s; simpl; [done |].
  unfold bind at 1, get at 1.
  destruct (computeVars c s (o_RawConfig o)) as [raw [e|]]; [done |].
  destruct (Config raw !! "value") as [[v|]|]; try done.
  unfold bind. destruct (Outputs s) as [m|]; [|done].
  unfold put. by rewrite IH.
Qed.

Lemma applyWalk_emptyIDsFrom (c : Context) (g : list Noun) :
  emptyIDsFrom (c_state c) (result (snd (fst (applyWalk c g)))).
Proof.
  unfold applyWalk.
  apply (Walk_invariant (fun w => emptyIDsFrom (c_state c) (result w))).
  - intros n w Hw. apply (genericWalkFn_result_invariant
                            (emptyIDsFrom (c_state c))); [|done].
    intros r res Hres.
    destruct (applyCb_result_cases c r res) as [-> | [rs ->]]; [done |].
    intros id rs' Hid Hempty.
    destruct (decide (r_Id r = id)) as [<-|Hne].
    + rewrite installResult_lookup in Hid.
      destruct (decide (rs_ID rs = "")); [done | congruence].
    + rewrite installResult_lookup_ne in Hid by done. by apply Hres.
  - intros id rs Hid _. simpl in Hid. rewrite applyStart_Resources in Hid.
    destruct (c_state c); [done | by rewrite lookup_empty in Hid].
Qed.

Lemma Apply_returns (c c' : Context) (s : option State) (err : option error) :
  Apply c = (c', Returned (s, err)) ->
  (s = None /\ c' = c /\ snd (Graph (applyGraphOpts c)) = err /\ is_Some err) \/
  (exists s', s = Some s' /\ c' = c_set_state (Some s') c /\
     snd (Graph (applyGraphOpts c)) = None /\
     Resources s'
     = Resources (result (snd (fst (applyWalk c
                                      (fst (Graph (applyGraphOpts c)))))))).
Proof.
  unfold Apply. destruct (Graph (applyGraphOpts c)) as [g [e|]]; simpl.
  - intros [= <- <- <-]. left. eauto.
  - destruct (applyWalk c g) as [[g' w] [err'|v]]; simpl; [|done].
    assert (forall outs,
      (let (s0, o) := computeOutputs c outs (s_set_Outputs (Some ∅) (result w)) in
       match o with
       | Returned err0 => (c_set_state (Some s0) c, Returned (Some s0, err0))
       | Panicked v => (c_set_state (Some s0) c, Panicked v)
       end) = (c', Returned (s, err)) ->
      exists s', s = Some s' /\ c' = c_set_state (Some s') c /\
                 Resources s' = Resources (result w)) as Houts.
    { intros outs.
      pose proof (computeOutputs_Resources c outs
                    (s_set_Outputs (Some ∅) (result w))) as HR.
      destruct (computeOutputs c outs _) as [s0 [err0|v]]; [|done].
      intros [= <- <- <-]. eauto. }
    intros Heq. right.
    destruct err' as [e|].
    + injection Heq as <- <- <-. eauto.
    + destruct (cfg_Outputs (c_config c)) as [|o outs].
      * injection Heq as <- <- <-. eauto.
      * apply (Houts (o :: outs)) in Heq as (s' & -> & -> & HR). eauto.
Qed.

(** C4 (amended): during Apply a state that the provider returns with an
    empty ID is treated as destroyed, its resource id is removed from the
    result, and a state with a non-empty ID is installed under the resource
    id; consequently a resource id of the final state that maps to a state
    with an empty ID maps to that same state in the prior state, whose
    resources Apply copies: when the prior state has no such id, the final
    state has none. *)
Theorem C4_empty_ID_removed_from_result :
  (forall (c : Context) (r : Resource) (result : State) (d : ResourceDiff)
          (diff : option ResourceDiff) (rs0 : option ResourceState),
      r_Diff r = Some d ->
      Empty (Some d) = false ->
      (if negb (rd_Destroy d)
       then rp_Diff (r_Provider r) (r_State r) (r_Config r)
       else (Some d, None)) = (diff, None) ->
      Forall (fun h => PreApply h (r_Id r) (r_State r) diff
                       = HookActionContinue) (c_hooks c) ->
      rp_Apply (r_Provider r) (r_State r) diff = (rs0, None) ->
      let rs' := snd (scrubUnknown (rs_set_Type (rs_Type (r_State r))
                                      (default newResourceState rs0))) in
      let result' := snd (fst (applyCb c (r, result))) in
      (rs_ID (default newResourceState rs0) = "" ->
       Resources result' !! r_Id r = None) /\
      (rs_ID (default newResourceState rs0) <> "" ->
       Resources result' !! r_Id r = Some rs' /\
       rs_ID rs' = rs_ID (default newResourceState rs0)))
  /\ (forall (c : Context) (g : list Noun),
         emptyIDsFrom (c_state c) (result (snd (fst (applyWalk c g)))))
  /\ (forall (c c' : Context) (s : State) (err : option error),
         Apply c = (c', Returned (Some s, err)) ->
         emptyIDsFrom (c_state c) s /\
         ((forall prior, c_state c = Some prior -> noEmptyID prior) ->
          noEmptyID s)).
Proof.
  split; [|split].
  - intros c r result d diff rs0 Hd He Hdiff Hpre Happly rs' result'.
    destruct (applyCb_installs c r result d diff rs0
                Hd He Hdiff Hpre Happly) as (HID & Hlook).
    fold rs' in HID, Hlook. fold result' in Hlook.
    simpl in HID. rewrite Hlook, HID. split; intros Hid.
    + by rewrite decide_True.
    + by rewrite decide_False.
  - apply applyWalk_emptyIDsFrom.
  - intros c c' s err HA.
    assert (emptyIDsFrom (c_state c) s) as Hfrom.
    { apply Apply_returns in HA
        as [(? & _)|(s' & [= <-] & _ & _ & HR)]; [done |].
      intros id rs Hid Hempty. rewrite HR in Hid.
      by apply (applyWalk_emptyIDsFrom c (fst (Graph (applyGraphOpts c))) id rs). }
    split; [done |].
    intros Hprior id rs Hid Hempty.
    specialize (Hfrom id rs Hid Hempty).
    destruct (c_state c) as [prior|]; [|done]. simpl in Hfrom.
    by apply (Hprior prior eq_refl id rs).
Qed.

(** ** Apply *)

Lemma Apply_walk_error (c : Context) (g : list Noun) (e : error) :
  Graph (applyGraphOpts c) = (g, None) ->
  snd (applyWalk c g) = Returned (Some e) ->
  Apply c
  = (c_set_state (Some (result (snd (fst (applyWalk c g))))) c,
     Returned (Some (result (snd (fst (applyWalk c g)))), Some e)).
Proof.
  intros HG Hw. unfold Apply. rewrite HG.
  destruct (applyWalk c g) as [[g' w] o]. simpl in *. by subst o.
Qed.


(** ** The plan callback *)

Lemma planCb_error (c : Context) (opts : PlanOpts) (r : Resource) (p : PlanT)
    (diff : option ResourceDiff) (e : error) :
  Forall (fun h => PreDiff h (r_Id r) (r_State r) = HookActionContinue)
         (c_hooks c) ->
  planDiff opts r = (diff, Some e) ->
  planCb c opts (r, p) = ((r, p), Returned (∅, Some e)).
Proof.
  intros Hpre Hd. unfold planCb, bind at 1, get at 1. simpl.
  unfold bind at 1.
  rewrite (forEach_handleHook_continue (c_hooks c)
             (fun h => PreDiff h (r_Id r) (r_State r))) by done.
  by rewrite Hd.
Qed.

Lemma planCb_run (c : Context) (opts : PlanOpts) (r : Resource) (p : PlanT)
    (df : Diff) (diff : option ResourceDiff) :
  p_Diff p = Some df ->
  Forall (fun h => PreDiff h (r_Id r) (r_State r) = HookActionContinue)
         (c_hooks c) ->
  planDiff opts r = (diff, None) ->
  planCb c opts (r, p)
  = match forEach (c_hooks c)
            (fun h => handleHook (PostDiff h (r_Id r) diff))
            (r, recorded (r_Id r) diff p) with
    | (_, Returned _) =>
      ((merged diff r, recorded (r_Id r) diff p),
       Returned (Vars (merged diff r), None))
    | (st, Panicked v) => (st, Panicked v)
    end.
Proof.
  intros Hp Hpre Hd. unfold planCb, bind at 1, get at 1. simpl.
  unfold bind at 1.
  rewrite (forEach_handleHook_continue (c_hooks c)
             (fun h => PreDiff h (r_Id r) (r_State r))) by done.
  rewrite Hd. unfold recorded, merged. rewrite Hp.
  destruct diff as [d|]; simpl.
  - destruct (negb (rd_Destroy d) && bool_decide (rd_Attributes d = ∅)); simpl.
    + unfold bind, ret. simpl.
      by destruct (forEach_handleHook_cases (c_hooks c)
                     (fun h => PostDiff h (r_Id r) (Some d)) (r, p))
        as [-> | ->].
    + unfold bind, recordDiff, bind, get, put, modify. simpl. rewrite Hp.
      by destruct (forEach_handleHook_cases (c_hooks c)
                     (fun h => PostDiff h (r_Id r) (Some d))
                     (r, p_set_Diff
                           (Some {| d_Resources :=
                                      <[r_Id r := d]> (d_Resources df) |}) p))
        as [-> | ->].
  - unfold bind, ret. simpl.
    by destruct (forEach_handleHook_cases (c_hooks c)
                   (fun h => PostDiff h (r_Id r) None) (r, p))
      as [-> | ->].
Qed.


(** C3 (amended): the diff of a resource node visited during Plan is: when
    the Destroy option is set, a destroy-only diff if the state has a
    non-empty ID and no diff at all (nil, which is Empty) if it has none,
    the provider not being asked in either case; when it is not set, a
    destroy-only diff if the resource has no Config, and otherwise what the
    provider's Diff returns.  So the code agrees with the claim's rule except
    when Destroy is set and the ID is empty.  An error of the provider makes
    the callback return that error with nothing recorded. *)
Theorem C3_plan_diff_rule (c : Context) (opts : PlanOpts) (r : Resource)
    (p : PlanT) :
  Forall (fun h => PreDiff h (r_Id r) (r_State r) = HookActionContinue)
         (c_hooks c) ->
  (Destroy opts = true -> rs_ID (r_State r) <> "" ->
   planDiff opts r = (Some destroyDiff, None))
  /\ (Destroy opts = true -> rs_ID (r_State r) = "" ->
      planDiff opts r = (None, None) /\ Empty (fst (planDiff opts r)) = true)
  /\ (Destroy opts = false -> r_Config r = None ->
      planDiff opts r = (Some destroyDiff, None))
  /\ (Destroy opts = false -> r_Config r <> None ->
      planDiff opts r = rp_Diff (r_Provider r) (r_State r) (r_Config r))
  /\ (Destroy opts = false \/ rs_ID (r_State r) <> "" ->
      planDiff opts r = planDiff_spec opts r)
  /\ (forall e, snd (planDiff opts r) = Some e ->
      planCb c opts (r, p) = ((r, p), Returned (∅, Some e))).
Proof.
  intros Hpre.
  split; [|split; [|split; [|split; [|split]]]].
  - intros HD Hid. unfold planDiff. rewrite HD. by rewrite decide_False.
  - intros HD Hid. unfold planDiff. rewrite HD. by rewrite decide_True.
  - intros HD Hc. unfold planDiff. by rewrite HD, Hc.
  - intros HD Hc. unfold planDiff. rewrite HD. by destruct (r_Config r).
  - intros HDI. unfold planDiff, planDiff_spec.
    destruct (Destroy opts); [|done].
    destruct HDI as [|Hid]; [done |].
    by rewrite decide_False, bool_decide_eq_false_2.
  - intros e He.
    apply (planCb_error c opts r p (fst (planDiff opts r))); [done |].
    rewrite <- He. by destruct (planDiff opts r).
Qed.

(** ** Plan *)

Lemma planCb_keeps_Diff (c : Context) (opts : PlanOpts) (r : Resource)
    (p : PlanT) :
  is_Some (p_Diff p) -> is_Some (p_Diff (snd (fst (planCb c opts (r, p))))).
Proof.
  intros [df Hp].
  destruct (forEach_handleHook_cases (c_hooks c)
              (fun h => PreDiff h (r_Id r) (r_State r)) (r, p)) as [Hpre|Hpre].
  - destruct (planDiff opts r) as [diff [e|]] eqn:Hd.
    + unfold planCb, bind at 1, get at 1. simpl. unfold bind at 1.
      rewrite Hpre, Hd. simpl. rewrite Hp. eauto.
    + assert (is_Some (p_Diff (recorded (r_Id r) diff p))) as Hrec.
      { unfold recorded. rewrite Hp.
        destruct diff as [d|]; [|rewrite Hp; eauto].
        destruct (Empty (Some d)); simpl.
        - rewrite Hp. eauto.
        - eauto. }
      unfold planCb, bind at 1, get at 1. simpl. unfold bind at 1.
      rewrite Hpre, Hd.
      assert ((if negb (Empty diff) then recordDiff (r_Id r) diff else ret tt)
                (r, p)
              = ((r, recorded (r_Id r) diff p), Returned tt)) as Hrd.
      { unfold recorded. rewrite Hp.
        destruct diff as [d|]; [|done].
        destruct (Empty (Some d)); [done |].
        unfold recordDiff, bind, get, put. simpl. by rewrite Hp. }
      unfold bind at 1. rewrite Hrd. unfold bind at 1.
      destruct (forEach_handleHook_cases (c_hooks c)
                  (fun h => PostDiff h (r_Id r) diff)
                  (r, recorded (r_Id r) diff p)) as [-> | ->]; [|done].
      unfold bind, modify, get, ret. by destruct (negb (Empty diff)).
  - unfold planCb, bind at 1, get at 1. simpl. unfold bind at 1.
    rewrite Hpre. simpl. rewrite Hp. eauto.
Qed.

Lemma planWalk_keeps_Diff (c : Context) (opts : option PlanOpts)
    (g : list Noun) :
  is_Some (p_Diff (result (snd (fst (planWalk c opts g))))).
Proof.
  unfold planWalk.
  apply (Walk_invariant (fun w => is_Some (p_Diff (result w)))).
  - intros n w Hw. unfold planWalkFn.
    apply (genericWalkFn_result_invariant (fun p => is_Some (p_Diff p)));
      [|done].
    intros r p. apply planCb_keeps_Diff.
  - simpl. eauto.
Qed.

(** C10: when the graph is built and the walk of Plan returns an error, Plan
    returns the plan with that error, and the Context it leaves holds the
    plan's Diff, which is allocated and holds what the walk recorded before
    the error, in place of the diff it held before; the graph that a
    following Apply builds is built from that Diff. *)
Theorem C10_plan_installs_partial_diff (c : Context) (opts : option PlanOpts)
    (g : list Noun) (e : error) :
  Graph (planGraphOpts c) = (g, None) ->
  snd (planWalk c opts g) = Returned (Some e) ->
  let p := result (snd (fst (planWalk c opts g))) in
  Plan c opts = (c_set_diff (p_Diff p) c, Returned (Some p, Some e))
  /\ is_Some (p_Diff p)
  /\ c_diff (fst (Plan c opts)) = p_Diff p
  /\ applyGraphOpts (fst (Plan c opts))
     = {| go_Config := c_config c; go_Diff := p_Diff p;
          go_Providers := c_providers c; go_State := c_state c |}.
Proof.
  intros HG Hw p.
  assert (Plan c opts = (c_set_diff (p_Diff p) c, Returned (Some p, Some e)))
    as HP.
  { unfold Plan. rewrite HG. subst p.
    destruct (planWalk c opts g) as [[g' w] o]. simpl in *. by subst o. }
  split; [done |]. split; [apply planWalk_keeps_Diff |].
  rewrite HP. done.
Qed.

(** ** Stopping and halting *)







Lemma genericWalkFn_halt {R} (cb : genericWalkFunc R) (n : Noun)
    (w : WalkSt R) (vs : gmap string string) (rn rn' : GraphNodeResource)
    (r : Resource) (res : R) :
  Name n <> GraphRootNode ->
  stop w = false ->
  computeAggregateVars n (counts w) (vars w) = (vs, Returned tt) ->
  Meta n = MetaResource rn ->
  prepareResource vs rn = (rn', None) ->
  cb (gr_Resource rn', result w) = ((r, res), Panicked PanicHalt) ->
  genericWalkFn cb n w
  = ((n_set_Meta (MetaResource (gr_set (gr_Config rn') r rn')) n,
      w_set_stop true (w_set_result res (w_set_vars vs w))),
     Returned None).
Proof.
  intros Hn Hs Hagg Hm Hprep Hcb. unfold genericWalkFn.
  rewrite decide_False by done. rewrite Hs, Hagg, Hm. simpl.
  rewrite Hprep, Hcb. done.
Qed.



Lemma Apply_walk_panicked (c : Context) (g : list Noun) (v : panic_value) :
  Graph (applyGraphOpts c) = (g, None) ->
  snd (applyWalk c g) = Panicked v ->
  Apply c = (c, Panicked v).
Proof.
  intros HG Hw. unfold Apply. rewrite HG.
  destruct (applyWalk c g) as [[g' w] o]. simpl in *. by subst o.
Qed.

Lemma Plan_walk_panicked (c : Context) (opts : option PlanOpts)
    (g : list Noun) (v : panic_value) :
  Graph (planGraphOpts c) = (g, None) ->
  snd (planWalk c opts g) = Panicked v ->
  Plan c opts = (c, Panicked v).
Proof.
  intros HG Hw. unfold Plan. rewrite HG.
  destruct (planWalk c opts g) as [[g' w] o]. simpl in *. by subst o.
Qed.


(** C9 (amended): when the interpolation of a ResourceProvider node's
    configuration fails, the node callback does not return: it panics with
    that error, which aborts the walk and the operation with the panic, and
    the Context is left as it was; an error of a provider's Configure, on
    the other hand, is what the node callback returns and what the walk
    returns. *)
Theorem C9_provider_interpolation_panics :
  (forall R (cb : genericWalkFunc R) (n : Noun) (w : WalkSt R)
          (m : GraphNodeResourceProvider) (cfg : ProviderConfig)
          (vs : gmap string string) (g : list Noun),
      Name n <> GraphRootNode ->
      stop w = false ->
      Meta n = MetaResourceProvider m ->
      gp_Config m = Some cfg ->
      computeAggregateVars n (counts w) (vars w) = (vs, Returned tt) ->
      (forall raw e,
          Interpolate (pc_RawConfig cfg) vs = (raw, Some e) ->
          snd (genericWalkFn cb n w) = Panicked (PanicError e) /\
          snd (Walk (genericWalkFn cb) (n :: g) w) = Panicked (PanicError e))
      /\ (forall raw e,
             Interpolate (pc_RawConfig cfg) vs = (raw, None) ->
             configureAll (gp_Providers m) (Some (NewResourceConfig raw))
             = Some e ->
             snd (genericWalkFn cb n w) = Returned (Some e) /\
             snd (Walk (genericWalkFn cb) (n :: g) w) = Returned (Some e)))
  /\ (forall (c : Context) (g : list Noun) (v : panic_value),
         Graph (applyGraphOpts c) = (g, None) ->
         snd (applyWalk c g) = Panicked v -> Apply c = (c, Panicked v))
  /\ (forall (c : Context) (opts : option PlanOpts) (g : list Noun)
             (v : panic_value),
         Graph (planGraphOpts c) = (g, None) ->
         snd (planWalk c opts g) = Panicked v -> Plan c opts = (c, Panicked v)).
Proof.
  split; [|split; [apply Apply_walk_panicked | apply Plan_walk_panicked]].
  intros R cb n w m cfg vs g Hn Hs Hm Hcfg Hagg.
  assert (forall raw err,
            Interpolate (pc_RawConfig cfg) vs = (raw, err) ->
            genericWalkFn cb n w
            = ((n_set_Meta (MetaResourceProvider
                  (gp_set_Config (Some {| pc_RawConfig := raw |}) m)) n,
                w_set_vars vs w),
               match err with
               | Some e => Panicked (PanicError e)
               | None => Returned (configureAll (gp_Providers m)
                                     (Some (NewResourceConfig raw)))
               end)) as Hfn.
  { intros raw err HI. unfold genericWalkFn.
    rewrite decide_False by done. rewrite Hs, Hagg, Hm, Hcfg. simpl.
    rewrite HI. by destruct err. }
  split; intros raw e HI.
  - rewrite (Hfn raw (Some e) HI). split; [done |].
    simpl. by rewrite (Hfn raw (Some e) HI).
  - intros Hc. rewrite (Hfn raw None HI), Hc. split; [done |].
    simpl. by rewrite (Hfn raw None HI), Hc.
Qed.

(** ** Outputs *)





(** * Further properties of the code *)

(** ** The variable store *)

(** X1: the store of a walk starts with the user variables of the Context,
    each under its name prefixed with "var.", and with nothing else. *)
Theorem X1_walkInit_user_variables {R} (invars : gmap string string) (res : R) :
  (forall k, vars (walkInit invars res) !! ("var." +:+ k) = invars !! k)
  /\ (forall key, is_Some (vars (walkInit invars res) !! key) ->
                  exists k, key = "var." +:+ k /\ is_Some (invars !! k))
  /\ counts (walkInit invars res) = ∅
  /\ stop (walkInit invars res) = false.
Proof.
  split; [|split; [|done]].
  - intros k. simpl.
    apply (map_fold_weak_ind
             (fun acc m => acc !! ("var." +:+ k) = m !! k)); [done |].
    intros k' v m acc Hk' IH.
    destruct (decide (k' = k)) as [->|Hne].
    + by rewrite !lookup_insert_eq.
    + rewrite !lookup_insert_ne; [done | done |].
      intros Heq. by apply (inj (String.append "var.")) in Heq.
  - intros key. simpl.
    apply (map_fold_weak_ind
             (fun acc m => is_Some (acc !! key) ->
                           exists k, key = "var." +:+ k /\ is_Some (m !! k))).
    + rewrite lookup_empty. by intros [? ?].
    + intros k' v m acc Hk' IH Hsome.
      destruct (decide ("var." +:+ k' = key)) as [<-|Hne].
      * exists k'. by rewrite lookup_insert_eq.
      * rewrite lookup_insert_ne in Hsome by done.
        destruct (IH Hsome) as (k & -> & Hk). exists k. split; [done |].
        rewrite lookup_insert_ne; [done |]. by intros ->.
Qed.

Lemma aggregate_field_inv (F : string) (idx : nat) :
  index 0 "." F = Some idx ->
  String.eqb (substring 0 idx F) "*" = true ->
  exists field, F = "*." +:+ field.
Proof.
  destruct F as [|a F']; [done |].
  cbn [index].
  destruct (String.prefix "." (String a F')) eqn:Hp.
  - intros [= <-]. done.
  - destruct (index 0 "." F') as [n|] eqn:Hi; [|done].
    intros [= <-]. cbn [substring].
    intros Heq. apply String.eqb_eq in Heq. injection Heq as -> Hsub.
    destruct F' as [|b F'']; [done |].
    destruct n as [|n]; [|done].
    cbn [index] in Hi.
    destruct (String.prefix "." (String b F'')) eqn:Hp'.
    + cbn [String.prefix] in Hp'.
      destruct (ascii_dec "." b) as [<-|]; [|done].
      by exists F''.
    + by destruct (index 0 "." F'').
Qed.

(** X2: [computeAggregateVars] acts on a variable only if it is a resource
    variable whose field starts with "*.": every other variable leaves the
    store as it is and does not panic, whatever the counts table holds. *)
Theorem X2_only_star_fields_are_aggregates (cs : gmap string Z)
    (v : InterpolatedVariable) (vs : gmap string string) :
  (forall rv field, v = IVResource rv -> rv_Field rv <> "*." +:+ field) ->
  aggregateVar cs v vs = (vs, Returned tt).
Proof.
  intros Hno. unfold aggregateVar. destruct v as [rv|name key]; [|done].
  destruct (index 0 "." (rv_Field rv)) as [idx|] eqn:Hi; [|done].
  destruct (String.eqb (substring 0 idx (rv_Field rv)) "*") eqn:He; [|done].
  destruct (aggregate_field_inv _ _ Hi He) as [field HF].
  by destruct (Hno rv field eq_refl).
Qed.

Lemma aggregateVar_recorded (cs : gmap string Z) (vs : gmap string string)
    (rv : ResourceVariable) (field : string) (count : Z) :
  rv_Field rv = "*." +:+ field ->
  cs !! (rv_Type rv +:+ "." +:+ rv_Name rv) = Some count ->
  aggregateVar cs (IVResource rv) vs
  = (<[FullKey rv := strings_Join (presentValues vs rv field count) ","]> vs,
     Returned tt).
Proof.
  intros HF Hc. unfold aggregateVar. rewrite HF, index_star_dot.
  cbv zeta. rewrite slice_star, slice_field, Hc.
  unfold bind, get, put. by rewrite collectValues_present.
Qed.

Lemma aggregateVar_missing (cs : gmap string Z) (vs : gmap string string)
    (rv : ResourceVariable) (field : string) :
  rv_Field rv = "*." +:+ field ->
  cs !! (rv_Type rv +:+ "." +:+ rv_Name rv) = None ->
  aggregateVar cs (IVResource rv) vs
  = (vs, Panicked (PanicNonExistent (rv_Type rv +:+ "." +:+ rv_Name rv))).
Proof.
  intros HF Hc. unfold aggregateVar. rewrite HF, index_star_dot.
  cbv zeta. by rewrite slice_star, slice_field, Hc.
Qed.

Lemma aggregateVar_outcome (cs : gmap string Z) (v : InterpolatedVariable)
    (vs : gmap string string) :
  snd (aggregateVar cs v vs) = Returned tt \/
  exists key, aggregateVar cs v vs = (vs, Panicked (PanicNonExistent key)) /\
              cs !! key = None.
Proof.
  unfold aggregateVar. destruct v as [rv|name key]; [|by left].
  destruct (index 0 "." (rv_Field rv)) as [idx|]; [|by left].
  destruct (negb _); [by left |].
  destruct (cs !! _) eqn:Hc; [by left |]. right. eauto.
Qed.

Lemma computeAggregateVars_missing_count (n : Noun) (cs : gmap string Z)
    (vs : gmap string string) (nm : string) (rv : ResourceVariable)
    (field : string) :
  (nm, IVResource rv) ∈ nodeVariables n ->
  rv_Field rv = "*." +:+ field ->
  cs !! (rv_Type rv +:+ "." +:+ rv_Name rv) = None ->
  exists key, snd (computeAggregateVars n cs vs)
              = Panicked (PanicNonExistent key)
              /\ cs !! key = None.
Proof.
  unfold computeAggregateVars. generalize (nodeVariables n). intros l Hin HF Hc.
  revert vs. induction l as [|[nm' v] l IH]; intros vs;
    [by apply elem_of_nil in Hin |].
  simpl. unfold bind.
  destruct (aggregateVar_outcome cs v vs) as [Hv | (key & Hv & Hk)].
  - destruct (aggregateVar cs v vs) as [vs' o] eqn:Hagg. simpl in Hv. subst o.
    apply elem_of_cons in Hin as [[= <- <-]|Hin]; [|by apply IH].
    by rewrite (aggregateVar_missing cs vs rv field HF Hc) in Hagg.
  - rewrite Hv. simpl. eauto.
Qed.

(** X3: when a node refers to an aggregate variable TYPE.NAME.*.FIELD and no
    count is recorded for TYPE.NAME, visiting the node panics with a
    non-existent-resource-variable access on a key without a count; the
    callback is not called: the result and the counts are what they were. *)
Theorem X3_aggregate_without_count_panics {R} (cb : genericWalkFunc R)
    (n : Noun) (w : WalkSt R) (nm : string) (rv : ResourceVariable)
    (field : string) :
  Name n <> GraphRootNode ->
  stop w = false ->
  (nm, IVResource rv) ∈ nodeVariables n ->
  rv_Field rv = "*." +:+ field ->
  counts w !! (rv_Type rv +:+ "." +:+ rv_Name rv) = None ->
  exists key,
    snd (genericWalkFn cb n w) = Panicked (PanicNonExistent key)
    /\ counts w !! key = None
    /\ result (snd (fst (genericWalkFn cb n w))) = result w
    /\ counts (snd (fst (genericWalkFn cb n w))) = counts w
    /\ fst (fst (genericWalkFn cb n w)) = n.
Proof.
  intros Hn Hs Hin HF Hc.
  destruct (computeAggregateVars_missing_count n (counts w) (vars w) nm rv
              field Hin HF Hc) as (key & Hp & Hk).
  exists key. unfold genericWalkFn. rewrite decide_False by done. rewrite Hs.
  destruct (computeAggregateVars n (counts w) (vars w)) as [vs o].
  simpl in Hp. subst o. done.
Qed.

(** X4: a ResourceMeta node records its count under its id and returns,
    leaving the store, the result and the stop flag as they were; an
    aggregate variable of that resource resolved afterwards does not panic
    and is the join over exactly that count. *)
Theorem X4_meta_count_then_aggregate {R} (cb : genericWalkFunc R) (n : Noun)
    (w : WalkSt R) (m : GraphNodeResourceMeta) (rv : ResourceVariable)
    (field : string) :
  Name n <> GraphRootNode ->
  stop w = false ->
  Meta n = MetaResourceMeta m ->
  gm_ID m = rv_Type rv +:+ "." +:+ rv_Name rv ->
  rv_Field rv = "*." +:+ field ->
  let w' := snd (fst (genericWalkFn cb n w)) in
  genericWalkFn cb n w
  = ((n, w_set_counts (<[gm_ID m := gm_Count m]> (counts w)) w), Returned None)
  /\ vars w' = vars w /\ result w' = result w /\ stop w' = false
  /\ aggregateVar (counts w') (IVResource rv) (vars w')
     = (<[FullKey rv :=
            strings_Join (presentValues (vars w) rv field (gm_Count m)) ","]>
          (vars w), Returned tt).
Proof.
  intros Hn Hs Hm Hid HF w'.
  assert (genericWalkFn cb n w
          = ((n, w_set_counts (<[gm_ID m := gm_Count m]> (counts w)) w),
             Returned None)) as Hfn.
  { unfold genericWalkFn. rewrite decide_False by done. rewrite Hs.
    unfold computeAggregateVars, nodeVariables. rewrite Hm. simpl.
    by destruct w. }
  subst w'. rewrite Hfn. simpl. repeat split; try done.
  apply aggregateVar_recorded; [done |]. by rewrite <- Hid, lookup_insert_eq.
Qed.

Lemma aggregateVar_keeps_keys (cs : gmap string Z) (v : InterpolatedVariable)
    (vs : gmap string string) (k : string) :
  is_Some (vs !! k) -> is_Some (fst (aggregateVar cs v vs) !! k).
Proof.
  intros Hk. unfold aggregateVar. destruct v as [rv|name key]; [|done].
  destruct (index 0 "." (rv_Field rv)) as [idx|]; [|done].
  destruct (negb _); [done |].
  destruct (cs !! _) as [count|]; [|done].
  unfold bind, get, put. simpl. apply lookup_insert_is_Some'. by right.
Qed.

Lemma computeAggregateVars_keeps_keys (n : Noun) (cs : gmap string Z)
    (vs : gmap string string) (k : string) :
  is_Some (vs !! k) -> is_Some (fst (computeAggregateVars n cs vs) !! k).
Proof.
  unfold computeAggregateVars. generalize (nodeVariables n). intros l.
  revert vs. induction l as [|nv l IH]; intros vs Hk; [done |].
  simpl. unfold bind.
  pose proof (aggregateVar_keeps_keys cs (snd nv) vs k Hk) as Hk'.
  destruct (aggregateVar cs (snd nv) vs) as [vs' [[]|v]]; [by apply IH | done].
Qed.

Lemma genericWalkFn_keeps_keys {R} (cb : genericWalkFunc R) (n : Noun)
    (w : WalkSt R) (k : string) :
  is_Some (vars w !! k) ->
  is_Some (vars (snd (fst (genericWalkFn cb n w))) !! k).
Proof.
  intros Hk. unfold genericWalkFn.
  destruct (decide (Name n = GraphRootNode)); [done |].
  destruct (stop w); [done |].
  pose proof (computeAggregateVars_keeps_keys n (counts w) (vars w) k Hk)
    as Hk'.
  destruct (computeAggregateVars n (counts w) (vars w)) as [vs [[]|v]];
    simpl in Hk'; [|done].
  destruct (Meta n) as [rn|m|m|]; try done.
  - destruct (prepareResource (vars (w_set_vars vs w)) rn) as [rn' [e|]];
      [done |].
    destruct (cb (gr_Resource rn', result (w_set_vars vs w)))
      as [[r res] [[nv [e|]]|[]]]; try done.
    simpl. apply lookup_union_is_Some. by right.
  - destruct (gp_Config m) as [cfg|]; [|done].
    by destruct (Interpolate (pc_RawConfig cfg) (vars (w_set_vars vs w)))
      as [raw [e|]].
Qed.

Lemma genericWalkFn_keeps_counts {R} (cb : genericWalkFunc R) (n : Noun)
    (w : WalkSt R) (k : string) :
  is_Some (counts w !! k) ->
  is_Some (counts (snd (fst (genericWalkFn cb n w))) !! k).
Proof.
  intros Hk. unfold genericWalkFn.
  destruct (decide (Name n = GraphRootNode)); [done |].
  destruct (stop w); [done |].
  destruct (computeAggregateVars n (counts w) (vars w)) as [vs [[]|v]];
    [|done].
  destruct (Meta n) as [rn|m|m|]; try done.
  - destruct (prepareResource (vars (w_set_vars vs w)) rn) as [rn' [e|]];
      [done |].
    by destruct (cb (gr_Resource rn', result (w_set_vars vs w)))
      as [[r res] [[nv [e|]]|[]]].
  - simpl. apply lookup_insert_is_Some'. by right.
  - destruct (gp_Config m) as [cfg|]; [|done].
    by destruct (Interpolate (pc_RawConfig cfg) (vars (w_set_vars vs w)))
      as [raw [e|]].
Qed.

(** X5: no key is ever removed from the variable store or from the counts
    table during a walk, whatever the callback does and however the walk
    ends (returned, failed or panicked). *)
Theorem X5_walk_never_removes_keys {R} (cb : genericWalkFunc R)
    (g : list Noun) (w : WalkSt R) (k : string) :
  (is_Some (vars w !! k) ->
   is_Some (vars (snd (fst (Walk (genericWalkFn cb) g w))) !! k))
  /\ (is_Some (counts w !! k) ->
      is_Some (counts (snd (fst (Walk (genericWalkFn cb) g w))) !! k)).
Proof.
  split; intros Hk.
  - apply (Walk_invariant (fun w => is_Some (vars w !! k))); [|done].
    intros n w'. apply genericWalkFn_keeps_keys.
  - apply (Walk_invariant (fun w => is_Some (counts w !! k))); [|done].
    intros n w'. apply genericWalkFn_keeps_counts.
Qed.

(** ** What a node visit does to the result *)

Lemma prepareResource_keeps (vs : gmap string string) (rn : GraphNodeResource) :
  let rn' := fst (prepareResource vs rn) in
  r_Id (gr_Resource rn') = r_Id (gr_Resource rn)
  /\ r_State (gr_Resource rn') = r_State (gr_Resource rn)
  /\ r_Diff (gr_Resource rn') = r_Diff (gr_Resource rn)
  /\ r_Provider (gr_Resource rn') = r_Provider (gr_Resource rn)
  /\ gr_Orphan rn' = gr_Orphan rn
  /\ gr_Type rn' = gr_Type rn.
Proof.
  destruct rn as [ty cfg orphan [id st rc df pr]].
  unfold prepareResource. simpl.
  destruct cfg as [cfg|]; simpl.
  - destruct (decide (vs = ∅)); simpl.
    + destruct orphan; simpl; [done |]. by destruct rc.
    + destruct (Interpolate (cr_RawConfig cfg) vs) as [raw [e|]]; simpl;
        [done |].
      by destruct orphan.
  - destruct orphan; simpl; [done |]. by destruct rc.
Qed.

Lemma genericWalkFn_result_cases {R} (cb : genericWalkFunc R) (n : Noun)
    (w : WalkSt R) :
  result (snd (fst (genericWalkFn cb n w))) = result w \/
  exists rn vs,
    Meta n = MetaResource rn /\
    result (snd (fst (genericWalkFn cb n w)))
    = snd (fst (cb (gr_Resource (fst (prepareResource vs rn)), result w))).
Proof.
  unfold genericWalkFn.
  destruct (decide (Name n = GraphRootNode)); [by left |].
  destruct (stop w); [by left |].
  destruct (computeAggregateVars n (counts w) (vars w)) as [vs [[]|v]];
    [|by left].
  destruct (Meta n) as [rn|m|m|]; try by left.
  - destruct (prepareResource (vars (w_set_vars vs w)) rn) as [rn' [e|]]
      eqn:Hprep; [by left |].
    right. exists rn, vs. split; [done |]. simpl in Hprep. rewrite Hprep.
    simpl.
    by destruct (cb (gr_Resource rn', result w))
      as [[r res] [[nv [e|]]|[]]].
  - left. destruct (gp_Config m) as [cfg|]; [|done].
    by destruct (Interpolate (pc_RawConfig cfg) (vars (w_set_vars vs w)))
      as [raw [e|]].
Qed.

Lemma Walk_invariant_elem {St} (P : St -> Prop)
    (fn : Noun -> St -> (Noun * St) * outcome (option error))
    (g : list Noun) (st : St) :
  (forall n st, n ∈ g -> P st -> P (snd (fst (fn n st)))) ->
  P st -> P (snd (fst (Walk fn g st))).
Proof.
  revert st. induction g as [|n g IH]; intros st Hfn Hst; [done |].
  simpl. pose proof (Hfn n st (list_elem_of_here _ _) Hst) as Hn.
  destruct (fn n st) as [[n' st'] [[e|]|v]]; simpl in *; try done.
  assert (P (snd (fst (Walk fn g st')))) as IH'.
  { apply IH; [|done]. intros n0 st0 Hin. apply Hfn. by right. }
  by destruct (Walk fn g st') as [[g'' st''] o].
Qed.

(** ** Orphans *)

Lemma prepareResource_Config (vs : gmap string string)
    (rn rn' : GraphNodeResource) :
  prepareResource vs rn = (rn', None) ->
  if gr_Orphan rn then r_Config (gr_Resource rn') = None
  else is_Some (r_Config (gr_Resource rn')).
Proof.
  destruct rn as [ty cfg orphan [id st rc df pr]].
  unfold prepareResource. simpl.
  destruct cfg as [cfg|]; simpl.
  - destruct (decide (vs = ∅)); simpl.
    + destruct orphan; simpl; [by intros [= <-] |].
      destruct rc; intros [= <-]; simpl; eauto.
    + destruct (Interpolate (cr_RawConfig cfg) vs) as [raw [e|]]; simpl;
        [done |].
      destruct orphan; intros [= <-]; simpl; eauto.
  - destruct orphan; simpl; [by intros [= <-] |].
    destruct rc; intros [= <-]; simpl; eauto.
Qed.

Lemma planCb_records (c : Context) (opts : PlanOpts) (r : Resource)
    (p : PlanT) (df : Diff) (diff : option ResourceDiff) :
  p_Diff p = Some df ->
  Forall (fun h => PreDiff h (r_Id r) (r_State r) = HookActionContinue)
         (c_hooks c) ->
  planDiff opts r = (diff, None) ->
  snd (fst (planCb c opts (r, p))) = recorded (r_Id r) diff p
  /\ (snd (planCb c opts (r, p)) = Panicked PanicHalt \/
      exists nv, snd (planCb c opts (r, p)) = Returned (nv, None)).
Proof.
  intros Hp Hpre Hd. rewrite (planCb_run c opts r p df diff Hp Hpre Hd).
  destruct (forEach_handleHook_cases (c_hooks c)
              (fun h => PostDiff h (r_Id r) diff)
              (r, recorded (r_Id r) diff p)) as [-> | ->]; simpl; eauto.
Qed.

(** X6: a resource node marked as an orphan is handed to the callback
    without configuration, and a node that is not an orphan always with one.
    When Plan (not a destroy plan) visits an orphan, the node returns no error
    and a destroy-only diff is recorded under the resource id, whatever the
    provider of the resource would answer. *)
Theorem X6_orphan_is_planned_for_destroy (c : Context)
    (opts : option PlanOpts) (n : Noun) (w : WalkSt PlanT)
    (rn rn' : GraphNodeResource) (vs : gmap string string) (df : Diff) :
  Name n <> GraphRootNode ->
  stop w = false ->
  Meta n = MetaResource rn ->
  computeAggregateVars n (counts w) (vars w) = (vs, Returned tt) ->
  prepareResource vs rn = (rn', None) ->
  (if gr_Orphan rn then r_Config (gr_Resource rn') = None
   else is_Some (r_Config (gr_Resource rn')))
  /\ (gr_Orphan rn = true ->
      Destroy (default {| Destroy := false |} opts) = false ->
      p_Diff (result w) = Some df ->
      Forall (fun h => PreDiff h (r_Id (gr_Resource rn))
                               (r_State (gr_Resource rn))
                       = HookActionContinue) (c_hooks c) ->
      snd (planWalkFn c opts n w) = Returned None
      /\ p_Diff (result (snd (fst (planWalkFn c opts n w))))
         = Some {| d_Resources :=
                     <[r_Id (gr_Resource rn) := destroyDiff]>
                       (d_Resources df) |}).
Proof.
  intros Hn Hs Hm Hagg Hprep.
  pose proof (prepareResource_Config vs rn rn' Hprep) as Hcfg.
  split; [done |].
  intros Horphan HD Hp Hpre. rewrite Horphan in Hcfg.
  pose proof (prepareResource_keeps vs rn) as (Hid & Hst & _).
  rewrite Hprep in Hid, Hst. simpl in Hid, Hst.
  assert (planDiff (default {| Destroy := false |} opts) (gr_Resource rn')
          = (Some destroyDiff, None)) as Hd.
  { unfold planDiff. by rewrite HD, Hcfg. }
  destruct (planCb_records c (default {| Destroy := false |} opts)
              (gr_Resource rn') (result w) df (Some destroyDiff) Hp)
    as (Hrec & Hout); [by rewrite Hid, Hst | done |].
  unfold planWalkFn, genericWalkFn.
  rewrite decide_False by done. rewrite Hs, Hagg, Hm. simpl.
  rewrite Hprep.
  destruct (planCb c (default {| Destroy := false |} opts)
              (gr_Resource rn', result w)) as [[r res] o].
  simpl in Hrec, Hout.
  assert (p_Diff res
          = Some {| d_Resources :=
                      <[r_Id (gr_Resource rn) := destroyDiff]>
                        (d_Resources df) |}) as Hrd.
  { rewrite Hrec. unfold recorded. rewrite Hp, Hid. done. }
  clear Hrec. destruct Hout as [-> | [nv ->]]; simpl; by rewrite Hrd.
Qed.

(** ** The plan's Diff *)

Lemma planCb_result_cases (c : Context) (opts : PlanOpts) (r : Resource)
    (p : PlanT) :
  snd (fst (planCb c opts (r, p))) = p \/
  exists df d,
    p_Diff p = Some df /\ planDiff opts r = (Some d, None) /\
    Empty (Some d) = false /\
    snd (fst (planCb c opts (r, p)))
    = p_set_Diff (Some {| d_Resources := <[r_Id r := d]> (d_Resources df) |}) p.
Proof.
  destruct (forEach_handleHook_cases (c_hooks c)
              (fun h => PreDiff h (r_Id r) (r_State r)) (r, p)) as [Hpre|Hpre].
  - destruct (planDiff opts r) as [diff [e|]] eqn:Hd.
    + left. unfold planCb, bind at 1, get at 1. simpl. unfold bind at 1.
      by rewrite Hpre, Hd.
    + destruct (p_Diff p) as [df|] eqn:Hp.
      * assert (Forall (fun h => PreDiff h (r_Id r) (r_State r)
                                 = HookActionContinue) (c_hooks c)) as HF.
        { clear -Hpre. induction (c_hooks c) as [|h hs IH]; [done |].
          simpl in Hpre. unfold bind, handleHook in Hpre.
          destruct (PreDiff h (r_Id r) (r_State r)) eqn:Hh; [|done].
          constructor; [done | by apply IH]. }
        destruct (planCb_records c opts r p df diff Hp HF Hd) as [Hrec _].
        rewrite Hrec. unfold recorded. rewrite Hp.
        destruct diff as [d|]; [|by left].
        destruct (Empty (Some d)) eqn:He; [by left |].
        right. exists df, d. done.
      * left. unfold planCb, bind at 1, get at 1. simpl. unfold bind at 1.
        rewrite Hpre, Hd.
        destruct diff as [d|].
        -- destruct (Empty (Some d)); simpl.
           ++ unfold bind at 1. simpl. unfold bind at 1.
              destruct (forEach_handleHook_cases (c_hooks c)
                          (fun h => PostDiff h (r_Id r) (Some d)) (r, p))
                as [-> | ->]; done.
           ++ unfold bind at 1, recordDiff, bind, get. simpl. by rewrite Hp.
        -- simpl. unfold bind at 1. simpl. unfold bind at 1.
           destruct (forEach_handleHook_cases (c_hooks c)
                       (fun h => PostDiff h (r_Id r) None) (r, p))
             as [-> | ->]; done.
  - left. unfold planCb, bind at 1, get at 1. simpl. unfold bind at 1.
    by rewrite Hpre.
Qed.

Lemma planWalk_entries (c : Context) (opts : option PlanOpts) (g : list Noun)
    (Q : string -> ResourceDiff -> Prop) :
  (forall n rn vs d,
      n ∈ g -> Meta n = MetaResource rn ->
      planDiff (default {| Destroy := false |} opts)
               (gr_Resource (fst (prepareResource vs rn))) = (Some d, None) ->
      Empty (Some d) = false ->
      Q (r_Id (gr_Resource rn)) d) ->
  forall df id d,
    p_Diff (result (snd (fst (planWalk c opts g)))) = Some df ->
    d_Resources df !! id = Some d -> Q id d.
Proof.
  intros HQ. unfold planWalk.
  apply (Walk_invariant_elem
           (fun w => forall df id d, p_Diff (result w) = Some df ->
                                     d_Resources df !! id = Some d -> Q id d)).
  - intros n w Hin Hw. unfold planWalkFn.
    destruct (genericWalkFn_result_cases
                (planCb c (default {| Destroy := false |} opts)) n w)
      as [-> | (rn & vs & Hm & ->)]; [done |].
    destruct (planCb_result_cases c (default {| Destroy := false |} opts)
                (gr_Resource (fst (prepareResource vs rn))) (result w))
      as [-> | (df0 & d0 & Hp & Hd & He & ->)]; [done |].
    intros df id d [= <-]. simpl.
    pose proof (prepareResource_keeps vs rn) as (Hid & _).
    rewrite Hid.
    destruct (decide (r_Id (gr_Resource rn) = id)) as [<-|Hne].
    + rewrite lookup_insert_eq. intros [= <-]. by apply (HQ n rn vs).
    + rewrite lookup_insert_ne by done. by apply (Hw df0).
  - simpl. intros df id d [= <-]. simpl. by rewrite lookup_empty.
Qed.

(** X7: every entry of the Diff that the walk of Plan leaves in the plan,
    however the walk ends, is a diff that is not Empty, recorded under the id
    of a resource node of the graph. *)
Theorem X7_plan_diff_has_no_empty_entry (c : Context)
    (opts : option PlanOpts) (g : list Noun) (df : Diff) (id : string)
    (d : ResourceDiff) :
  p_Diff (result (snd (fst (planWalk c opts g)))) = Some df ->
  d_Resources df !! id = Some d ->
  Empty (Some d) = false /\ resourceNodeOf g id.
Proof.
  apply (planWalk_entries c opts g
           (fun id d => Empty (Some d) = false /\ resourceNodeOf g id)).
  intros n rn vs d0 Hin Hm _ He. split; [done |]. by exists n, rn.
Qed.

(** X8: in a destroy plan every entry of the plan's Diff is the destroy-only
    diff (Destroy set, no attribute), and it is recorded for a resource node
    whose state has a non-empty ID: a resource without ID is not planned. *)
Theorem X8_destroy_plan_holds_destroy_diffs (c : Context) (g : list Noun)
    (opts : PlanOpts) (df : Diff) (id : string) (d : ResourceDiff) :
  Destroy opts = true ->
  p_Diff (result (snd (fst (planWalk c (Some opts) g)))) = Some df ->
  d_Resources df !! id = Some d ->
  d = destroyDiff
  /\ exists n rn, n ∈ g /\ Meta n = MetaResource rn /\
                  r_Id (gr_Resource rn) = id /\
                  rs_ID (r_State (gr_Resource rn)) <> "".
Proof.
  intros HD.
  apply (planWalk_entries c (Some opts) g
           (fun id d => d = destroyDiff /\
              exists n rn, n ∈ g /\ Meta n = MetaResource rn /\
                           r_Id (gr_Resource rn) = id /\
                           rs_ID (r_State (gr_Resource rn)) <> "")).
  intros n rn vs d0 Hin Hm Hd _. simpl in Hd. unfold planDiff in Hd.
  rewrite HD in Hd.
  pose proof (prepareResource_keeps vs rn) as (_ & Hst & _).
  rewrite Hst in Hd.
  destruct (decide (rs_ID (r_State (gr_Resource rn)) = "")); [done |].
  injection Hd as <-. split; [done |]. by exists n, rn.
Qed.

Lemma planWalk_keeps_fields (c : Context) (opts : option PlanOpts)
    (g : list Noun) :
  let p := result (snd (fst (planWalk c opts g))) in
  p_Config p = c_config c /\ p_Vars p = c_variables c /\
  p_State p = Some (default State_init (c_state c)).
Proof.
  unfold planWalk.
  apply (Walk_invariant
           (fun w => p_Config (result w) = c_config c /\
                     p_Vars (result w) = c_variables c /\
                     p_State (result w)
                     = Some (default State_init (c_state c)))); [|done].
  intros n w Hw. unfold planWalkFn.
  apply (genericWalkFn_result_invariant
           (fun p => p_Config p = c_config c /\ p_Vars p = c_variables c /\
                     p_State p = Some (default State_init (c_state c))));
    [|done].
  intros r p Hp.
  by destruct (planCb_result_cases c (default {| Destroy := false |} opts) r p)
    as [-> | (df0 & d0 & _ & _ & _ & ->)].
Qed.

(** X9: Plan changes nothing of the Context but its diff, however it ends;
    and the plan it returns holds the configuration and the user variables of
    the Context and the state of the Context (a fresh empty state when the
    Context has none), untouched by the walk. *)
Theorem X9_plan_changes_only_the_diff (c : Context) (opts : option PlanOpts) :
  (c_state (fst (Plan c opts)) = c_state c
   /\ c_config (fst (Plan c opts)) = c_config c
   /\ c_variables (fst (Plan c opts)) = c_variables c
   /\ c_hooks (fst (Plan c opts)) = c_hooks c
   /\ c_providers (fst (Plan c opts)) = c_providers c)
  /\ (forall p err,
        snd (Plan c opts) = Returned (Some p, err) ->
        p_Config p = c_config c /\ p_Vars p = c_variables c /\
        p_State p = Some (default State_init (c_state c)) /\
        c_diff (fst (Plan c opts)) = p_Diff p).
Proof.
  unfold Plan. destruct (Graph (planGraphOpts c)) as [g [e|]]; [done |].
  pose proof (planWalk_keeps_fields c opts g) as Hk.
  destruct (planWalk c opts g) as [[g' w] [err|v]]; simpl in *; [|done].
  split; [done |]. intros p err' [= <- <-]. by destruct Hk as (? & ? & ?).
Qed.

(** ** Apply *)

Lemma applyCb_empty (c : Context) (r : Resource) (res : State) :
  Empty (r_Diff r) = true ->
  applyCb c (r, res) = ((r, res), Returned (Vars r, None)).
Proof.
  intros He. unfold applyCb, bind, get. simpl. by rewrite He.
Qed.

(** X10: when the diff of every resource node of the graph is Empty (or
    nil), Apply calls no provider and writes nothing: however the walk ends,
    the resources of the result are the resources of the prior state, and so
    are the resources of the state that Apply returns. *)
Theorem X10_apply_without_diff_keeps_resources (c : Context) (g : list Noun) :
  Graph (applyGraphOpts c) = (g, None) ->
  Forall (fun n => forall rn, Meta n = MetaResource rn ->
                              Empty (r_Diff (gr_Resource rn)) = true) g ->
  Resources (result (snd (fst (applyWalk c g))))
  = match c_state c with
    | Some prior => Resources prior
    | None => ∅
    end
  /\ (forall c' s err,
        Apply c = (c', Returned (Some s, err)) ->
        Resources s = match c_state c with
                      | Some prior => Resources prior
                      | None => ∅
                      end).
Proof.
  intros HG Hall.
  assert (result (snd (fst (applyWalk c g))) = applyStart c) as Hres.
  { unfold applyWalk.
    apply (Walk_invariant_elem (fun w => result w = applyStart c)); [|done].
    intros n w Hin Hw. unfold applyWalkFn.
    destruct (genericWalkFn_result_cases (applyCb c) n w)
      as [-> | (rn & vs & Hm & ->)]; [done |].
    rewrite applyCb_empty; [done |].
    pose proof (prepareResource_keeps vs rn) as (_ & _ & Hdf & _).
    rewrite Hdf. rewrite Forall_forall in Hall. by apply (Hall n). }
  split; [by rewrite Hres, applyStart_Resources |].
  intros c' s err HA.
  apply Apply_returns in HA as [(? & _)|(s' & [= <-] & _ & _ & HR)]; [done |].
  rewrite HG in HR. simpl in HR. by rewrite HR, Hres, applyStart_Resources.
Qed.

Lemma applyCb_provider_error (c : Context) (r : Resource) (res : State)
    (d : ResourceDiff) (e : error) :
  r_Diff r = Some d ->
  Empty (Some d) = false ->
  (rd_Destroy d = false /\
   snd (rp_Diff (r_Provider r) (r_State r) (r_Config r)) = Some e) \/
  (exists diff,
      (if negb (rd_Destroy d)
       then rp_Diff (r_Provider r) (r_State r) (r_Config r)
       else (Some d, None)) = (diff, None) /\
      Forall (fun h => PreApply h (r_Id r) (r_State r) diff
                       = HookActionContinue) (c_hooks c) /\
      snd (rp_Apply (r_Provider r) (r_State r) diff) = Some e) ->
  applyCb c (r, res) = ((r, res), Returned (∅, Some e)).
Proof.
  intros Hd He Hfail. unfold applyCb, bind at 1, get at 1. simpl.
  rewrite Hd, He.
  destruct Hfail as [[HD Herr] | (diff & Hdiff & Hpre & Herr)].
  - rewrite HD. simpl.
    destruct (rp_Diff (r_Provider r) (r_State r) (r_Config r)) as [diff o].
    simpl in Herr. by subst o.
  - rewrite Hdiff. unfold bind at 1.
    rewrite (forEach_handleHook_continue (c_hooks c)
               (fun h => PreApply h (r_Id r) (r_State r) diff)) by done.
    destruct (rp_Apply (r_Provider r) (r_State r) diff) as [rs0 o].
    simpl in Herr. by subst o.
Qed.

(** X11: when the provider fails during Apply, in Diff or in Apply itself,
    the callback returns the provider's error as it is and has written
    nothing: the result and the resource are what they were; the node returns
    that error and the walk ends there with it, the nodes after it left
    unvisited. *)
Theorem X11_apply_provider_error_writes_nothing (c : Context) (n : Noun)
    (rest : list Noun) (w : WalkSt State) (rn rn' : GraphNodeResource)
    (vs : gmap string string) (d : ResourceDiff) (e : error) :
  Name n <> GraphRootNode ->
  stop w = false ->
  Meta n = MetaResource rn ->
  computeAggregateVars n (counts w) (vars w) = (vs, Returned tt) ->
  prepareResource vs rn = (rn', None) ->
  r_Diff (gr_Resource rn') = Some d ->
  Empty (Some d) = false ->
  (rd_Destroy d = false /\
   snd (rp_Diff (r_Provider (gr_Resource rn')) (r_State (gr_Resource rn'))
          (r_Config (gr_Resource rn'))) = Some e) \/
  (exists diff,
      (if negb (rd_Destroy d)
       then rp_Diff (r_Provider (gr_Resource rn')) (r_State (gr_Resource rn'))
              (r_Config (gr_Resource rn'))
       else (Some d, None)) = (diff, None) /\
      Forall (fun h => PreApply h (r_Id (gr_Resource rn'))
                         (r_State (gr_Resource rn')) diff
                       = HookActionContinue) (c_hooks c) /\
      snd (rp_Apply (r_Provider (gr_Resource rn')) (r_State (gr_Resource rn'))
             diff) = Some e) ->
  applyCb c (gr_Resource rn', result w)
  = ((gr_Resource rn', result w), Returned (∅, Some e))
  /\ Walk (applyWalkFn c) (n :: rest) w
     = ((n_set_Meta (MetaResource rn') n :: rest, w_set_vars vs w),
        Returned (Some e)).
Proof.
  intros Hn Hs Hm Hagg Hprep Hd He Hfail.
  pose proof (applyCb_provider_error c (gr_Resource rn') (result w) d e
                Hd He Hfail) as Hcb.
  split; [done |].
  simpl. unfold applyWalkFn, genericWalkFn.
  rewrite decide_False by done. rewrite Hs, Hagg, Hm. simpl.
  rewrite Hprep, Hcb. simpl.
  destruct rn' as [ty cfg orphan r]. destruct w. done.
Qed.

(** ** computeVars *)

Lemma computeVarsLoop_bindable (c : Context) (s : State)
    (pre rest : list (string * InterpolatedVariable))
    (vs : gmap string string) :
  Forall (fun nv => bindable s (snd nv)) pre ->
  computeVarsLoop c s (pre ++ rest) vs
  = computeVarsLoop c s rest (bindingsOf c s pre vs).
Proof.
  intros Hall. revert vs.
  induction Hall as [|[n iv] pre Hb _ IH]; intros vs; [done |].
  destruct iv as [v|name key].
  - destruct Hb as (r & attr & Hr & Ha).
    cbn [app computeVarsLoop]. rewrite Hr, Ha, IH.
    unfold bindingsOf. cbn [foldl fst snd bindingOf].
    rewrite Hr. cbn [mbind option_bind]. by rewrite Ha.
  - cbn [app computeVarsLoop]. by rewrite IH.
Qed.

(** X12: [computeVars] binds the variables in order and fails at the first
    resource variable whose resource, or whose attribute, the state does not
    hold, with the error that names the resource id, the attribute and the
    variable; the raw config is then returned as it was, not interpolated. *)
Theorem X12_computeVars_first_missing (c : Context) (s : State)
    (raw : RawConfig) (pre post : list (string * InterpolatedVariable))
    (n : string) (v : ResourceVariable) :
  Variables raw = (pre ++ (n, IVResource v) :: post)%list ->
  Forall (fun nv => bindable s (snd nv)) pre ->
  (Resources s !! ResourceId v = None ->
   computeVars c s raw
   = (raw, Some (Errorf ("Resource '" +:+ ResourceId v +:+
                         "' not found for variable '" +:+ FullKey v +:+ "'"))))
  /\ (forall r, Resources s !! ResourceId v = Some r ->
                rs_Attributes r !! rv_Field v = None ->
                computeVars c s raw
                = (raw, Some (Errorf ("Resource '" +:+ ResourceId v +:+
                                      "' does not have attribute '" +:+
                                      rv_Field v +:+ "' for variable '" +:+
                                      FullKey v +:+ "'")))).
Proof.
  intros Hvars Hall.
  assert (forall o,
            computeVarsLoop c s (pre ++ (n, IVResource v) :: post) ∅ = o ->
            computeVars c s raw
            = match o with
              | (_, Some e) => (raw, Some e)
              | (vs, None) => Interpolate raw vs
              end) as Hcv.
  { intros o <-. unfold computeVars. rewrite Hvars.
    by destruct (pre ++ (n, IVResource v) :: post)%list eqn:Hl;
      [destruct pre |]. }
  split.
  - intros Hr. erewrite Hcv; [|by rewrite computeVarsLoop_bindable].
    simpl. by rewrite Hr.
  - intros r Hr Ha. erewrite Hcv; [|by rewrite computeVarsLoop_bindable].
    simpl. by rewrite Hr, Ha.
Qed.

Lemma bindingsOf_lookup_notin (c : Context) (s : State)
    (l : list (string * InterpolatedVariable)) (m : gmap string string)
    (n : string) :
  n ∉ l.*1 -> bindingsOf c s l m !! n = m !! n.
Proof.
  revert m. induction l as [|[n' iv] l IH]; intros m Hn; [done |].
  change (bindingsOf c s ((n', iv) :: l) m)
    with (bindingsOf c s l (<[n' := bindingOf c s iv]> m)).
  apply not_elem_of_cons in Hn as [Hne Hn].
  rewrite IH by done. by rewrite lookup_insert_ne.
Qed.

Lemma bindingsOf_lookup_in (c : Context) (s : State)
    (l : list (string * InterpolatedVariable)) (m : gmap string string)
    (n : string) (iv : InterpolatedVariable) :
  NoDup l.*1 -> (n, iv) ∈ l ->
  bindingsOf c s l m !! n = Some (bindingOf c s iv).
Proof.
  revert m. induction l as [|[n' iv'] l IH]; intros m Hnd Hin;
    [by apply elem_of_nil in Hin |].
  change (bindingsOf c s ((n', iv') :: l) m)
    with (bindingsOf c s l (<[n' := bindingOf c s iv']> m)).
  apply NoDup_cons in Hnd as [Hn' Hnd].
  apply elem_of_cons in Hin as [[= <- <-]|Hin].
  - rewrite bindingsOf_lookup_notin by done. apply lookup_insert_eq.
  - by apply IH.
Qed.

Lemma bindingsOf_dom (c : Context) (s : State)
    (l : list (string * InterpolatedVariable)) (m : gmap string string)
    (n : string) :
  is_Some (bindingsOf c s l m !! n) <-> is_Some (m !! n) \/ n ∈ l.*1.
Proof.
  revert m. induction l as [|[n' iv] l IH]; intros m.
  - simpl. split; [by left | intros [?|Hin]; [done |]].
    by apply elem_of_nil in Hin.
  - change (bindingsOf c s ((n', iv) :: l) m)
      with (bindingsOf c s l (<[n' := bindingOf c s iv]> m)).
    rewrite IH, lookup_insert_is_Some', fmap_cons, elem_of_cons. simpl.
    intuition (subst; auto).
Qed.

(** X13: when every variable of a raw config can be bound, [computeVars]
    returns what [Interpolate] returns for the bindings of exactly the names
    of the variables: a resource variable is bound to the attribute in the
    state, a user variable to its value in the Context, and a user variable
    that the Context does not hold is bound to the empty string, without any
    error.  A raw config without variables is returned as is, with no error
    and no interpolation. *)
Theorem X13_computeVars_bindings (c : Context) (s : State) (raw : RawConfig) :
  Forall (fun nv => bindable s (snd nv)) (Variables raw) ->
  let vs := bindingsOf c s (Variables raw) ∅ in
  (Variables raw <> [] -> computeVars c s raw = Interpolate raw vs)
  /\ (Variables raw = [] -> computeVars c s raw = (raw, None))
  /\ (forall n, is_Some (vs !! n) <-> n ∈ (Variables raw).*1)
  /\ (NoDup (Variables raw).*1 ->
      (forall n name key,
          (n, IVUser name key) ∈ Variables raw ->
          vs !! n = Some (default "" (c_variables c !! name)))
      /\ (forall n v r attr,
             (n, IVResource v) ∈ Variables raw ->
             Resources s !! ResourceId v = Some r ->
             rs_Attributes r !! rv_Field v = Some attr ->
             vs !! n = Some attr)).
Proof.
  intros Hall vs. split; [|split; [|split]].
  - intros Hne. unfold computeVars.
    pose proof (computeVarsLoop_bindable c s (Variables raw) [] ∅ Hall) as Hl.
    rewrite app_nil_r in Hl. simpl in Hl.
    destruct (Variables raw) as [|iv ivars] eqn:Hv; [done |].
    by rewrite Hl.
  - intros Hnil. unfold computeVars. by rewrite Hnil.
  - intros n. subst vs. rewrite bindingsOf_dom. rewrite lookup_empty.
    split; [intros [[? ?]|?]; done | by right].
  - intros Hnd. split.
    + intros n name key Hin. subst vs.
      by rewrite (bindingsOf_lookup_in c s _ ∅ n (IVUser name key)).
    + intros n v r attr Hin Hr Ha. subst vs.
      rewrite (bindingsOf_lookup_in c s _ ∅ n (IVResource v)) by done.
      simpl. by rewrite Hr; simpl; rewrite Ha.
Qed.

(** ** Provider nodes *)

Lemma configureAll_first_error (ps : list (string * ResourceProvider))
    (rc : option ResourceConfig) :
  match configureAll ps rc with
  | None => Forall (fun kp => rp_Configure (snd kp) rc = None) ps
  | Some e =>
    exists pre kp post,
      ps = (pre ++ kp :: post)%list /\
      Forall (fun kp => rp_Configure (snd kp) rc = None) pre /\
      rp_Configure (snd kp) rc = Some e
  end.
Proof.
  induction ps as [|[k p] ps IH]; simpl; [done |].
  destruct (rp_Configure p rc) as [e|] eqn:Hp.
  - exists [], (k, p), ps. done.
  - destruct (configureAll ps rc) as [e|].
    + destruct IH as (pre & kp & post & -> & Hpre & He).
      exists ((k, p) :: pre), kp, post. split; [done |].
      split; [by constructor | done].
    + by constructor.
Qed.

(** X14: a ResourceProvider node configures its providers in order with the
    interpolated configuration (nil when the node has none) and returns the
    error of the first provider whose Configure fails, the providers after it
    not being configured; it returns no error exactly when every Configure
    succeeds; the result, the counts and the stop flag are left as they
    were. *)
Theorem X14_provider_node_configures_in_order {R} (cb : genericWalkFunc R)
    (n : Noun) (w : WalkSt R) (m : GraphNodeResourceProvider)
    (vs : gmap string string) :
  Name n <> GraphRootNode ->
  stop w = false ->
  Meta n = MetaResourceProvider m ->
  computeAggregateVars n (counts w) (vars w) = (vs, Returned tt) ->
  (forall cfg, gp_Config m = Some cfg ->
               snd (Interpolate (pc_RawConfig cfg) vs) = None) ->
  let rc := match gp_Config m with
            | Some cfg =>
              Some (NewResourceConfig (fst (Interpolate (pc_RawConfig cfg) vs)))
            | None => None
            end in
  let w' := snd (fst (genericWalkFn cb n w)) in
  snd (genericWalkFn cb n w) = Returned (configureAll (gp_Providers m) rc)
  /\ result w' = result w /\ counts w' = counts w /\ stop w' = false
  /\ vars w' = vs
  /\ (configureAll (gp_Providers m) rc = None <->
      Forall (fun kp => rp_Configure (snd kp) rc = None) (gp_Providers m))
  /\ (forall e, configureAll (gp_Providers m) rc = Some e ->
        exists pre kp post,
          gp_Providers m = (pre ++ kp :: post)%list /\
          Forall (fun kp => rp_Configure (snd kp) rc = None) pre /\
          rp_Configure (snd kp) rc = Some e).
Proof.
  intros Hn Hs Hm Hagg HI rc w'.
  assert (genericWalkFn cb n w
          = ((match gp_Config m with
              | Some cfg =>
                n_set_Meta (MetaResourceProvider
                  (gp_set_Config
                     (Some {| pc_RawConfig :=
                                fst (Interpolate (pc_RawConfig cfg) vs) |}) m)) n
              | None => n
              end, w_set_vars vs w),
             Returned (configureAll (gp_Providers m) rc))) as Hfn.
  { unfold genericWalkFn. rewrite decide_False by done.
    rewrite Hs, Hagg, Hm. simpl. subst rc.
    destruct (gp_Config m) as [cfg|]; [|done].
    specialize (HI cfg eq_refl).
    destruct (Interpolate (pc_RawConfig cfg) vs) as [raw o]. simpl in *.
    by subst o. }
  subst w'. rewrite Hfn. simpl.
  pose proof (configureAll_first_error (gp_Providers m) rc) as Hc.
  repeat split; try done.
  - intros Hnone. by rewrite Hnone in Hc.
  - intros Hall. destruct (configureAll (gp_Providers m) rc) as [e|]; [|done].
    destruct Hc as (pre & kp & post & Hps & _ & He).
    rewrite Hps in Hall. apply Forall_app in Hall as [_ Hall].
    apply Forall_cons in Hall as [Hkp _]. congruence.
  - intros e He. by rewrite He in Hc.
Qed.

(** ** Refresh *)

Lemma refreshCb_run (c : Context) (r : Resource) (res : State) :
  Forall (fun h => PreRefresh h (r_Id r) (r_State r) = HookActionContinue)
         (c_hooks c) ->
  refreshCb c (r, res)
  = match rp_Refresh (r_Provider r) (r_State r) with
    | (_, Some e) => ((r, res), Returned (∅, Some e))
    | (rs0, None) =>
      let rs := rs_set_Type (rs_Type (r_State r))
                  (default newResourceState rs0) in
      match forEach (c_hooks c)
              (fun h => handleHook (PostRefresh h (r_Id r) rs))
              (r, s_set_Resources (<[r_Id r := rs]> (Resources res)) res) with
      | (st, Returned _) => (st, Returned (∅, None))
      | (st, Panicked v) => (st, Panicked v)
      end
    end.
Proof.
  intros Hpre. unfold refreshCb, bind at 1, get at 1. simpl.
  unfold bind at 1.
  rewrite (forEach_handleHook_continue (c_hooks c)
             (fun h => PreRefresh h (r_Id r) (r_State r))) by done.
  destruct (rp_Refresh (r_Provider r) (r_State r)) as [rs0 [e|]]; [done |].
  unfold bind, modify. simpl.
  match goal with
  | |- context [forEach (c_hooks c) (fun h => handleHook (@?f h)) ?st] =>
    by destruct (forEach_handleHook_cases (c_hooks c) f st) as [-> | ->]
  end.
Qed.

Lemma refreshCb_result_cases (c : Context) (r : Resource) (res : State) :
  snd (fst (refreshCb c (r, res))) = res \/
  exists rs, snd (fst (refreshCb c (r, res)))
             = s_set_Resources (<[r_Id r := rs]> (Resources res)) res.
Proof.
  remember (refreshCb c (r, res)) as out eqn:Hout.
  unfold refreshCb, bind at 1, get at 1 in Hout. simpl in Hout.
  unfold bind at 1 in Hout.
  destruct (forEach_handleHook_cases (c_hooks c)
              (fun h => PreRefresh h (r_Id r) (r_State r)) (r, res))
    as [Hpre|Hpre]; rewrite Hpre in Hout; [|subst out; by left].
  destruct (rp_Refresh (r_Provider r) (r_State r)) as [rs0 [e|]];
    [subst out; by left |].
  right. exists (rs_set_Type (rs_Type (r_State r))
                   (default newResourceState rs0)).
  unfold bind, modify in Hout. simpl in Hout.
  match type of Hout with
  | context [forEach (c_hooks c) (fun h => handleHook (@?f h)) ?st] =>
    destruct (forEach_handleHook_cases (c_hooks c) f st) as [Hpost | Hpost];
      rewrite Hpost in Hout; by subst out
  end.
Qed.

(** X15: the refresh callback installs what the provider's Refresh returns
    under the resource id, with the type of the resource's current state,
    also when its ID is empty; a nil answer is installed as an empty state of
    that type; the other resources of the result, its outputs and the
    resource itself are left as they were; no variable is exported.  When
    the provider fails, its error is returned and nothing is installed. *)
Theorem X15_refresh_installs_provider_state (c : Context) (r : Resource)
    (res : State) :
  Forall (fun h => PreRefresh h (r_Id r) (r_State r) = HookActionContinue)
         (c_hooks c) ->
  let out := refreshCb c (r, res) in
  (forall rs0,
      rp_Refresh (r_Provider r) (r_State r) = (rs0, None) ->
      let rs := rs_set_Type (rs_Type (r_State r))
                  (default newResourceState rs0) in
      Resources (snd (fst out)) !! r_Id r = Some rs
      /\ rs_Type rs = rs_Type (r_State r)
      /\ (rs0 = None -> rs_ID rs = "" /\ rs_Attributes rs = ∅)
      /\ (forall rs1, rs0 = Some rs1 ->
                      rs_ID rs = rs_ID rs1 /\
                      rs_Attributes rs = rs_Attributes rs1)
      /\ (forall id, id <> r_Id r ->
                     Resources (snd (fst out)) !! id = Resources res !! id)
      /\ Outputs (snd (fst out)) = Outputs res
      /\ fst (fst out) = r
      /\ (snd out = Returned (∅, None) \/ snd out = Panicked PanicHalt))
  /\ (forall rs0 e,
         rp_Refresh (r_Provider r) (r_State r) = (rs0, Some e) ->
         out = ((r, res), Returned (∅, Some e))).
Proof.
  intros Hpre out. subst out. rewrite (refreshCb_run c r res Hpre).
  split.
  - intros rs0 Hr rs. rewrite Hr. cbv zeta. subst rs.
    match goal with
    | |- context [forEach (c_hooks c) (fun h => handleHook (@?f h)) ?st] =>
      destruct (forEach_handleHook_cases (c_hooks c) f st) as [-> | ->]
    end; simpl;
      (split; [apply lookup_insert_eq |]); (split; [done |]);
      (split; [by intros -> |]); (split; [by intros rs1 -> |]);
      (split; [intros id Hne; by apply lookup_insert_ne |]); eauto.
  - intros rs0 e Hr. by rewrite Hr.
Qed.

Lemma refreshWalk_result (c : Context) (g : list Noun) :
  let s := result (snd (fst (refreshWalk c g))) in
  Outputs s = None /\
  forall id, is_Some (Resources s !! id) -> resourceNodeOf g id.
Proof.
  unfold refreshWalk.
  apply (Walk_invariant_elem
           (fun w => Outputs (result w) = None /\
                     forall id, is_Some (Resources (result w) !! id) ->
                                resourceNodeOf g id)).
  - intros n w Hin [Hout Hw]. unfold refreshWalkFn.
    destruct (genericWalkFn_result_cases (refreshCb c) n w)
      as [-> | (rn & vs & Hm & ->)]; [done |].
    destruct (refreshCb_result_cases c
                (gr_Resource (fst (prepareResource vs rn))) (result w))
      as [-> | [rs ->]]; [done |].
    split; [done |]. intros id. simpl.
    pose proof (prepareResource_keeps vs rn) as (Hid & _). rewrite Hid.
    rewrite lookup_insert_is_Some'. intros [<- | Hsome]; [|by apply Hw].
    by exists n, rn.
  - split; [done |]. intros id. simpl. rewrite lookup_empty.
    by intros [? ?].
Qed.

(** X16: Refresh builds the refreshed state from nothing: the state it
    returns and leaves in the Context has no outputs and holds resources only
    under ids of resource nodes of the graph, so a resource of the prior state
    without a node is forgotten; this holds also when the walk returned an
    error.  When the graph cannot be built, Refresh returns the state the
    Context holds, with the error, and the Context is left as it was. *)
Theorem X16_refresh_starts_from_empty_state (c : Context) (g : list Noun)
    (gerr : option error) :
  Graph (refreshGraphOpts c) = (g, gerr) ->
  (forall e, gerr = Some e -> Refresh c = (c, Returned (c_state c, Some e)))
  /\ (gerr = None ->
      forall c' s err,
        Refresh c = (c', Returned (s, err)) ->
        exists s', s = Some s' /\ c' = c_set_state (Some s') c /\
                   Outputs s' = None /\
                   forall id, is_Some (Resources s' !! id) ->
                              resourceNodeOf g id).
Proof.
  intros HG. unfold Refresh. rewrite HG. split.
  - by intros e ->.
  - intros -> c' s err.
    pose proof (refreshWalk_result c g) as Hres.
    destruct (refreshWalk c g) as [[g' w] [err'|v]]; simpl in *; [|done].
    intros [= <- <- <-]. exists (result w). by destruct Hres.
Qed.

(** ** NewContext and the stop hook *)

Lemma omap_id_Some {A} (l : list A) : omap id (Some <$> l) = l.
Proof. induction l as [|a l IH]; csimpl; [done | by rewrite IH]. Qed.

Lemma NewContext_hooks (opts : ContextOpts) (sh : Hook) :
  c_hooks (NewContext opts sh) = (co_Hooks opts ++ [sh])%list.
Proof.
  unfold NewContext, copyHooks. simpl.
  rewrite replicate_add.
  rewrite list_inserts_0_r by by rewrite length_fmap, length_replicate.
  rewrite insert_app_r_alt by by rewrite length_fmap.
  rewrite length_fmap, Nat.sub_diag. simpl.
  by rewrite omap_app, omap_id_Some.
Qed.

Lemma forEach_armed_stop_hook {S} (hs : list Hook) (f : Hook -> HookAction)
    (s : S) :
  f (stopHook true) = HookActionHalt ->
  forEach (hs ++ [stopHook true]) (fun h => handleHook (f h)) s
  = (s, Panicked PanicHalt).
Proof.
  intros Hf. apply forEach_handleHook_halt.
  apply Exists_app. right. by constructor.
Qed.

(** X17: the hooks of a Context made by NewContext are the hooks of the
    options, in order, followed by the stop hook.  Once the stop hook is
    armed, whatever the other hooks answer: the plan callback halts before it
    determines a diff and the apply callback halts before the provider's
    Apply is called, neither having written anything; and a resource node
    visited by Plan returns no error, sets the stop flag and leaves the plan
    as it was. *)
Theorem X17_armed_stop_hook_halts (opts : ContextOpts) :
  (forall sh, c_hooks (NewContext opts sh) = (co_Hooks opts ++ [sh])%list)
  /\ (forall popts r p,
         planCb (NewContext opts (stopHook true)) popts (r, p)
         = ((r, p), Panicked PanicHalt))
  /\ (forall r res d diff,
         r_Diff r = Some d ->
         Empty (Some d) = false ->
         (if negb (rd_Destroy d)
          then rp_Diff (r_Provider r) (r_State r) (r_Config r)
          else (Some d, None)) = (diff, None) ->
         applyCb (NewContext opts (stopHook true)) (r, res)
         = ((r, res), Panicked PanicHalt))
  /\ (forall popts n w rn rn' vs,
         Name n <> GraphRootNode ->
         stop w = false ->
         computeAggregateVars n (counts w) (vars w) = (vs, Returned tt) ->
         Meta n = MetaResource rn ->
         prepareResource vs rn = (rn', None) ->
         let out := planWalkFn (NewContext opts (stopHook true)) popts n w in
         snd out = Returned None /\ stop (snd (fst out)) = true /\
         result (snd (fst out)) = result w).
Proof.
  split; [intros sh; apply NewContext_hooks |].
  assert (forall popts r p,
            planCb (NewContext opts (stopHook true)) popts (r, p)
            = ((r, p), Panicked PanicHalt)) as Hplan.
  { intros popts r p. unfold planCb. rewrite !NewContext_hooks.
    unfold bind at 1, get at 1. cbn [fst snd]. unfold bind at 1.
    by rewrite (forEach_armed_stop_hook (co_Hooks opts)
                  (fun h => PreDiff h (r_Id r) (r_State r))). }
  split; [done |]. split.
  - intros r res d diff Hd He Hdiff.
    unfold applyCb. rewrite !NewContext_hooks.
    unfold bind at 1, get at 1. cbn [fst snd].
    rewrite Hd, He, Hdiff. unfold bind at 1.
    by rewrite (forEach_armed_stop_hook (co_Hooks opts)
                  (fun h => PreApply h (r_Id r) (r_State r) diff)).
  - intros popts n w rn rn' vs Hn Hs Hagg Hm Hprep out. subst out.
    unfold planWalkFn.
    by rewrite (genericWalkFn_halt _ n w vs rn rn' (gr_Resource rn')
                  (result w) Hn Hs Hagg Hm Hprep (Hplan _ _ _)).
Qed.

(** ** The validate walk *)

Lemma validateProvider_extends (rc : option ResourceConfig)
    (ps : list (string * ResourceProvider)) (acc : list string * list error) :
  exists ws es,
    foldl (validateProvider rc) acc ps
    = ((fst acc ++ ws)%list, (snd acc ++ es)%list).
Proof.
  revert acc. induction ps as [|kp ps IH]; intros acc.
  - exists [], []. simpl. rewrite !app_nil_r. by destruct acc.
  - simpl. unfold validateProvider at 2.
    destruct (rp_Validate (snd kp) rc) as [ws0 es0].
    edestruct IH as (ws & es & ->). simpl.
    eexists _, _. by rewrite <- !app_assoc.
Qed.

Lemma validateWalkFn_extends (n : Noun) (acc : list string * list error) :
  snd (validateWalkFn n acc) = Returned None
  /\ fst (fst (validateWalkFn n acc)) = n
  /\ exists ws es,
       snd (fst (validateWalkFn n acc))
       = ((fst acc ++ ws)%list, (snd acc ++ es)%list).
Proof.
  assert (exists ws es : list _,
            acc = ((fst acc ++ ws)%list, (snd acc ++ es)%list)) as Hsame.
  { exists [], []. rewrite !app_nil_r. by destruct acc. }
  unfold validateWalkFn.
  destruct (decide (Name n = GraphRootNode)); [done |].
  destruct (Meta n) as [rn|m|m|]; try done.
  - destruct (providerIsNil (gr_Resource rn)); [done |].
    destruct (rp_ValidateResource _ _ _) as [ws es]. simpl. eauto.
  - destruct (gp_Config m) as [cfg|]; [|done]. simpl.
    split; [done |]. split; [done |]. apply validateProvider_extends.
Qed.

(** X18: the validate walk function never returns an error and leaves the
    node as it is, so a validate walk visits every node of the graph and
    returns no error; the warnings and errors collected before a node are
    kept, in order, in front of those it adds; and a resource node adds
    exactly what the provider's ValidateResource returns, each prefixed with
    the quoted resource id. *)
Theorem X18_validate_walk_never_aborts (g : list Noun)
    (acc : list string * list error) :
  snd (Walk validateWalkFn g acc) = Returned None
  /\ fst (fst (Walk validateWalkFn g acc)) = g
  /\ (exists ws es,
         snd (fst (Walk validateWalkFn g acc))
         = ((fst acc ++ ws)%list, (snd acc ++ es)%list))
  /\ (forall n rn,
         n ∈ g -> Name n <> GraphRootNode -> Meta n = MetaResource rn ->
         providerIsNil (gr_Resource rn) = false ->
         forall acc0,
           snd (fst (validateWalkFn n acc0))
           = ((fst acc0 ++
               ((fun w => "'" +:+ r_Id (gr_Resource rn) +:+ "' warning: " +:+ w)
                  <$> fst (rp_ValidateResource (r_Provider (gr_Resource rn))
                             (gr_Type rn) (r_Config (gr_Resource rn)))))%list,
              (snd acc0 ++
               ((fun e => Errorf ("'" +:+ r_Id (gr_Resource rn) +:+
                                  "' error: " +:+ ErrorString e))
                  <$> snd (rp_ValidateResource (r_Provider (gr_Resource rn))
                             (gr_Type rn) (r_Config (gr_Resource rn)))))%list)).
Proof.
  assert (forall g acc,
            snd (Walk validateWalkFn g acc) = Returned None
            /\ fst (fst (Walk validateWalkFn g acc)) = g
            /\ exists ws es,
                 snd (fst (Walk validateWalkFn g acc))
                 = ((fst acc ++ ws)%list, (snd acc ++ es)%list)) as Hwalk.
  { clear g acc. induction g as [|n g IH]; intros acc.
    - simpl. split; [done |]. split; [done |]. exists [], [].
      rewrite !app_nil_r. by destruct acc.
    - simpl. destruct (validateWalkFn_extends n acc)
        as (Hret & Hn & ws & es & Hacc).
      destruct (validateWalkFn n acc) as [[n' acc'] o]. simpl in *.
      subst o n' acc'.
      destruct (IH ((fst acc ++ ws)%list, (snd acc ++ es)%list))
        as (Hret' & Hg & ws' & es' & Hacc').
      destruct (Walk validateWalkFn g _) as [[g' acc''] o']. simpl in *.
      subst o' g' acc''. split; [done |]. split; [done |].
      exists (ws ++ ws')%list, (es ++ es')%list. by rewrite !app_assoc. }
  destruct (Hwalk g acc) as (H1 & H2 & H3).
  split; [done |]. split; [done |]. split; [done |].
  intros n rn _ Hn Hm Hnil acc0. unfold validateWalkFn.
  rewrite decide_False by done. rewrite Hm, Hnil.
  by destruct (rp_ValidateResource _ _ _).
Qed.

(** ** What Apply leaves alone *)

(** X19: Apply changes the result only under the ids of the resource nodes
    of the graph: however the walk ends, a resource id that no node of the
    graph carries maps in the result, and in the state that Apply returns,
    to what it maps to in the prior state. *)
Theorem X19_apply_touches_only_graph_resources (c : Context) (g : list Noun)
    (id : string) :
  ~ resourceNodeOf g id ->
  Resources (result (snd (fst (applyWalk c g)))) !! id
  = (c_state c ≫= fun prior => Resources prior !! id)
  /\ (Graph (applyGraphOpts c) = (g, None) ->
      forall c' s err,
        Apply c = (c', Returned (Some s, err)) ->
        Resources s !! id = (c_state c ≫= fun prior => Resources prior !! id)).
Proof.
  intros Hnot.
  assert (Resources (result (snd (fst (applyWalk c g)))) !! id
          = Resources (applyStart c) !! id) as Hres.
  { unfold applyWalk.
    apply (Walk_invariant_elem
             (fun w => Resources (result w) !! id
                       = Resources (applyStart c) !! id)); [|done].
    intros n w Hin Hw. unfold applyWalkFn.
    destruct (genericWalkFn_result_cases (applyCb c) n w)
      as [-> | (rn & vs & Hm & ->)]; [done |].
    destruct (applyCb_result_cases c
                (gr_Resource (fst (prepareResource vs rn))) (result w))
      as [-> | [rs ->]]; [done |].
    pose proof (prepareResource_keeps vs rn) as (Hid & _).
    rewrite installResult_lookup_ne; [done |].
    rewrite Hid. intros <-. apply Hnot. by exists n, rn. }
  assert (Resources (applyStart c) !! id
          = (c_state c ≫= fun prior => Resources prior !! id)) as Hstart.
  { rewrite applyStart_Resources. by destruct (c_state c). }
  split; [by rewrite Hres |].
  intros HG c' s err HA.
  apply Apply_returns in HA as [(? & _)|(s' & [= <-] & _ & _ & HR)]; [done |].
  rewrite HG in HR. simpl in HR. by rewrite HR, Hres.
Qed.

(** X20: when the callback of a resource node returns variables and no
    error, the store afterwards maps every key of the returned variables to
    the returned value, a value the store held under that key being
    replaced, and maps every other key to what the store held after the
    aggregates of the node were resolved; the node returns no error. *)
Theorem X20_node_exports_variables {R} (cb : genericWalkFunc R) (n : Noun)
    (w : WalkSt R) (vs newVars : gmap string string)
    (rn rn' : GraphNodeResource) (r : Resource) (res : R) :
  Name n <> GraphRootNode ->
  stop w = false ->
  computeAggregateVars n (counts w) (vars w) = (vs, Returned tt) ->
  Meta n = MetaResource rn ->
  prepareResource vs rn = (rn', None) ->
  cb (gr_Resource rn', result w) = ((r, res), Returned (newVars, None)) ->
  let out := genericWalkFn cb n w in
  snd out = Returned None
  /\ result (snd (fst out)) = res
  /\ stop (snd (fst out)) = false
  /\ (forall k v, newVars !! k = Some v -> vars (snd (fst out)) !! k = Some v)
  /\ (forall k, newVars !! k = None -> vars (snd (fst out)) !! k = vs !! k).
Proof.
  intros Hn Hs Hagg Hm Hprep Hcb out. subst out. unfold genericWalkFn.
  rewrite decide_False by done. rewrite Hs, Hagg, Hm. simpl.
  rewrite Hprep, Hcb. simpl. repeat split; try done.
  - intros k v Hk. by apply lookup_union_Some_l.
  - intros k Hk. by rewrite lookup_union_r.
Qed.

End Context.

(** * The theorems at concrete inputs *)

Notation "'exApply'" := (Apply Ex.Unknown Ex.Interpolate Ex.Vars).
Notation "'exPlan'" := (Plan Ex.Interpolate Ex.Vars Ex.MergeDiff).
Notation "'exApplyWalk'" := (applyWalk Ex.Unknown Ex.Interpolate Ex.Vars).
Notation "'exPlanWalk'" := (planWalk Ex.Interpolate Ex.Vars Ex.MergeDiff).
Notation "'exApplyCb'" := (applyCb Ex.Unknown Ex.Vars).
Notation "'exPlanCb'" := (planCb Ex.Vars Ex.MergeDiff).


Example Apply_partial_state :
  let s := c_state (fst (exApply (Ex.Graph Ex.twoNouns) Ex.c1)) in
  (s ≫= fun s => Resources s !! "aws_instance.old") = Some Ex.oldState
  /\ (s ≫= fun s => Resources s !! "aws_instance.foo") = Some Ex.fooState
  /\ (s ≫= fun s => Resources s !! "aws_instance.bar") = None.
Proof. vm_compute. repeat split; reflexivity. Qed.

(** The provider returns a state with ID [x] whose attribute [foo] is
    unknown: [foo] is removed, [bar] is kept, one error is returned and the
    cleaned state is installed. *)
Lemma C2_witness :
  let r := Ex.fooResource (Some Ex.amiDiff)
             (Ex.provider (Some Ex.amiDiff) (Some (Ex.unknownState "x"))) in
  let rs := rs_set_Type "aws_instance" (Ex.unknownState "x") in
  let rs' := snd (scrubUnknown Ex.Unknown rs) in
  rp_Apply (r_Provider r) (r_State r) (Some Ex.amiDiff)
  = (Some (Ex.unknownState "x"), None)
  /\ (rs_Attributes rs' !! "foo" = None
      /\ unknownErr "foo" ∈ fst (scrubUnknown Ex.Unknown rs))
  /\ rs_Attributes rs' !! "bar" = Some "1"
  /\ Resources (snd (fst (exApplyCb Ex.cPlain (r, State_init)))) !! r_Id r
     = Some rs'
  /\ snd (exApplyCb Ex.cPlain (r, State_init))
     = Returned (Ex.Vars (r_set_State rs' r),
                 Some (MultiError [unknownErr "foo"])).
Proof.
  intros r rs rs'.
  assert (rp_Apply (r_Provider r) (r_State r) (Some Ex.amiDiff)
          = (Some (Ex.unknownState "x"), None)) as Happly by reflexivity.
  destruct (C2_unknown_attributes_scrubbed Ex.Unknown Ex.Vars Ex.cPlain r
              State_init Ex.amiDiff (Some Ex.amiDiff)
              (Some (Ex.unknownState "x")))
    as (Hunk & Hkeep & _ & _ & _ & _ & Hres & Hret);
    [reflexivity | reflexivity | reflexivity
    | repeat constructor | exact Happly |].
  split; [exact Happly |].
  split; [apply Hunk; vm_compute; reflexivity |].
  split; [apply (Hkeep "bar" "1"); [vm_compute; reflexivity | discriminate] |].
  split; [exact Hres |].
  rewrite Hret by repeat constructor. vm_compute. reflexivity.
Defined.

(** C2 as stated fails: the provider returns a state with an empty ID whose
    attribute [foo] is unknown; the error is returned, but the cleaned state
    is not installed: the resource id is absent from the result. *)
Lemma C2_counterexample :
  let r := Ex.fooResource (Some Ex.amiDiff)
             (Ex.provider (Some Ex.amiDiff) (Some (Ex.unknownState ""))) in
  let result := {| Outputs := None;
                   Resources := {[ "aws_instance.foo" := Ex.fooState ]} |} in
  let out := exApplyCb Ex.cPlain (r, result) in
  rp_Apply (r_Provider r) (r_State r) (Some Ex.amiDiff)
  = (Some (Ex.unknownState ""), None)
  /\ rs_Attributes (Ex.unknownState "") !! "foo" = Some Ex.Unknown
  /\ (exists vs, snd out = Returned (vs, Some (MultiError [unknownErr "foo"])))
  /\ Resources (snd (fst out)) !! r_Id r = None.
Proof.
  intros r result out.
  split; [reflexivity |]. split; [vm_compute; reflexivity |].
  split; [eexists; vm_compute; reflexivity | vm_compute; reflexivity].
Qed.

(** Destroy is set and the state has no ID: no diff, whatever the resource's
    configuration and provider. *)
Lemma C3_witness :
  let r := Ex.fooResource None (Ex.provider (Some Ex.amiDiff) None) in
  let opts := {| Destroy := true |} in
  Forall (fun h => PreDiff h (r_Id r) (r_State r) = HookActionContinue)
         (c_hooks Ex.cPlain)
  /\ planDiff opts r = (None, None)
  /\ Empty (fst (planDiff opts r)) = true.
Proof.
  intros r opts.
  assert (Forall (fun h => PreDiff h (r_Id r) (r_State r) = HookActionContinue)
                 (c_hooks Ex.cPlain)) as Hpre by repeat constructor.
  split; [exact Hpre |].
  apply (C3_plan_diff_rule Ex.Vars Ex.MergeDiff Ex.cPlain opts r
           (planStart Ex.cPlain) Hpre); reflexivity.
Defined.

(** C3 as stated fails: with Destroy set and no ID, the claim's rule asks the
    provider, whose diff is not empty; the code takes no diff and records
    nothing. *)
Lemma C3_counterexample :
  let r := Ex.fooResource None (Ex.provider (Some Ex.amiDiff) None) in
  let opts := {| Destroy := true |} in
  planDiff_spec opts r = (Some Ex.amiDiff, None)
  /\ planDiff opts r = (None, None)
  /\ planDiff opts r <> planDiff_spec opts r
  /\ (p_Diff (snd (fst (exPlanCb Ex.cPlain opts (r, planStart Ex.cPlain))))
      ≫= fun d => d_Resources d !! r_Id r) = None.
Proof.
  intros r opts.
  split; [reflexivity |]. split; [reflexivity |].
  split; [discriminate | vm_compute; reflexivity].
Qed.

(** Apply over a prior state without empty IDs: the state that comes back
    has none. *)
Lemma C4_witness :
  let g := fst (Ex.Graph Ex.twoNouns (applyGraphOpts Ex.c1)) in
  let s := result (snd (fst (exApplyWalk Ex.c1 g))) in
  exApply (Ex.Graph Ex.twoNouns) Ex.c1
  = (c_set_state (Some s) Ex.c1,
     Returned (Some s, Some (Errorf "apply failed")))
  /\ emptyIDsFrom (c_state Ex.c1) s
  /\ noEmptyID s.
Proof.
  intros g s.
  assert (exApply (Ex.Graph Ex.twoNouns) Ex.c1
          = (c_set_state (Some s) Ex.c1,
             Returned (Some s, Some (Errorf "apply failed")))) as HA.
  { apply Apply_walk_error; [reflexivity | vm_compute; reflexivity]. }
  split; [exact HA |].
  destruct (C4_empty_ID_removed_from_result Ex.Unknown Ex.Interpolate Ex.Vars
              (Ex.Graph Ex.twoNouns)) as (_ & _ & H3).
  destruct (H3 Ex.c1 _ s _ HA) as [Hfrom Hno].
  split; [exact Hfrom |].
  apply Hno. intros prior [= <-] id rs Hid.
  change (Resources Ex.prior1) with
    ({[ "aws_instance.old" := Ex.oldState ]} : gmap string ResourceState) in Hid.
  apply lookup_singleton_Some in Hid as [_ <-]. discriminate.
Defined.

(** C4 as stated fails: the prior state maps [aws_instance.foo] to a state
    with an empty ID and the diff of [aws_instance.foo] is Empty; the node has
    nothing to apply and the state that Apply returns still maps
    [aws_instance.foo] to that state. *)
Lemma C4_counterexample :
  exists s rs,
    snd (exApply (Ex.Graph Ex.fooNouns) Ex.cGone) = Returned (Some s, None)
    /\ Resources s !! "aws_instance.foo" = Some rs
    /\ rs_ID rs = "".
Proof.
  eexists _, Ex.goneState.
  split; [vm_compute; reflexivity |].
  split; [vm_compute; reflexivity | reflexivity].
Qed.


Example aggregate_value :
  presentValues Ex.webStore Ex.webVariable "id" 3 = ["i-1"; "i-3"]
  /\ fst (aggregateVar Ex.webCounts (IVResource Ex.webVariable) Ex.webStore)
     !! "aws_instance.web.*.id" = Some "i-1,i-3".
Proof. vm_compute. split; reflexivity. Qed.





Example Apply_outputs_stored :
  (c_state (fst (exApply (Ex.Graph Ex.fooNouns) Ex.cOutputs))
   ≫= fun s => Outputs s ≫= fun m => m !! "ami") = Some "ami-123"
  /\ (c_state (fst (exApply (Ex.Graph Ex.fooNouns) Ex.cOutputs))
      ≫= fun s => Resources s !! "aws_instance.foo") = Some Ex.fooState.
Proof. vm_compute. split; reflexivity. Qed.

(** The configuration of the provider refers to a user variable that has no
    binding: the interpolation fails and the node callback panics with that
    error. *)
Lemma C9_witness :
  let w := walkInit (c_variables Ex.cPlain) (applyStart Ex.cPlain) in
  let e := Errorf "unknown variable: var.region" in
  Ex.Interpolate (pc_RawConfig Ex.providerConfig) ∅
  = (pc_RawConfig Ex.providerConfig, Some e)
  /\ snd (genericWalkFn Ex.Interpolate (exApplyCb Ex.cPlain) Ex.providerNoun w)
     = Panicked (PanicError e)
  /\ snd (Walk (genericWalkFn Ex.Interpolate (exApplyCb Ex.cPlain))
            [Ex.providerNoun] w) = Panicked (PanicError e).
Proof.
  intros w e.
  assert (Ex.Interpolate (pc_RawConfig Ex.providerConfig) ∅
          = (pc_RawConfig Ex.providerConfig, Some e)) as HI
    by (vm_compute; reflexivity).
  split; [exact HI |].
  destruct (C9_provider_interpolation_panics Ex.Unknown Ex.Interpolate Ex.Vars
              Ex.MergeDiff (Ex.Graph [Ex.providerNoun])) as (Hnode & _ & _).
  destruct (Hnode State (exApplyCb Ex.cPlain) Ex.providerNoun w Ex.providerMeta
              Ex.providerConfig ∅ []) as (Hpanic & _);
    [discriminate | reflexivity | reflexivity | reflexivity | reflexivity |].
  exact (Hpanic _ e HI).
Defined.

(** C9 as stated fails: the interpolation of the provider's configuration
    fails with an error; the node callback does not return that error, it
    panics, and so does Plan, which leaves the Context as it was. *)
Lemma C9_counterexample :
  let w := walkInit (c_variables Ex.cPlain) (planStart Ex.cPlain) in
  let e := Errorf "unknown variable: var.region" in
  let cb := exPlanCb Ex.cPlain {| Destroy := false |} in
  snd (Ex.Interpolate (pc_RawConfig Ex.providerConfig) (vars w)) = Some e
  /\ snd (genericWalkFn Ex.Interpolate cb Ex.providerNoun w)
     = Panicked (PanicError e)
  /\ snd (genericWalkFn Ex.Interpolate cb Ex.providerNoun w)
     <> Returned (Some e)
  /\ exPlan (Ex.Graph [Ex.providerNoun]) Ex.cPlain None
     = (Ex.cPlain, Panicked (PanicError e)).
Proof.
  intros w e cb.
  split; [vm_compute; reflexivity |]. split; [vm_compute; reflexivity |].
  split; [vm_compute; discriminate | vm_compute; reflexivity].
Qed.

(** Plan of [foo] and [bar] on a Context that holds an older diff: the
    provider of [bar] fails; the Context holds the diff of [foo] afterwards,
    and a following Apply builds its graph from it. *)
Lemma C10_witness :
  let g := fst (Ex.Graph Ex.planNouns (planGraphOpts Ex.cPlan)) in
  let p := result (snd (fst (exPlanWalk Ex.cPlan None g))) in
  snd (exPlanWalk Ex.cPlan None g) = Returned (Some (Errorf "diff failed"))
  /\ exPlan (Ex.Graph Ex.planNouns) Ex.cPlan None
     = (c_set_diff (p_Diff p) Ex.cPlan,
        Returned (Some p, Some (Errorf "diff failed")))
  /\ go_Diff (applyGraphOpts (fst (exPlan (Ex.Graph Ex.planNouns) Ex.cPlan None)))
     = p_Diff p.
Proof.
  intros g p.
  assert (snd (exPlanWalk Ex.cPlan None g)
          = Returned (Some (Errorf "diff failed"))) as Hw
    by (vm_compute; reflexivity).
  split; [exact Hw |].
  destruct (C10_plan_installs_partial_diff Ex.Interpolate Ex.Vars Ex.MergeDiff
              (Ex.Graph Ex.planNouns) Ex.cPlan None g (Errorf "diff failed"))
    as (HP & _ & _ & Hopts); [reflexivity | exact Hw |].
  split; [exact HP |].
  fold p in Hopts. by rewrite Hopts.
Defined.

Example Plan_partial_diff :
  let d := c_diff (fst (exPlan (Ex.Graph Ex.planNouns) Ex.cPlan None)) in
  (d ≫= fun d => d_Resources d !! "aws_instance.foo") = Some Ex.amiDiff
  /\ (d ≫= fun d => d_Resources d !! "aws_instance.bar") = None
  /\ (d ≫= fun d => d_Resources d !! "aws_instance.old") = None.
Proof. vm_compute. repeat split; reflexivity. Qed.

(** * The further properties at concrete inputs *)

Notation "'exRefreshCb'" :=
  (refreshCb Ex.refreshNil Ex.hookContinue Ex.hookContinue).
Notation "'exRefresh'" :=
  (Refresh Ex.Interpolate (Ex.Graph Ex.fooNouns) Ex.refreshNil Ex.hookContinue
           Ex.hookContinue).
Notation "'exRefreshWalk'" :=
  (refreshWalk Ex.Interpolate Ex.refreshNil Ex.hookContinue Ex.hookContinue).
Notation "'exValidateWalkFn'" :=
  (validateWalkFn Ex.validateNothing Ex.validateResource Ex.providerNil
                  Ex.errorString).

Lemma X1_witness :
  let invars : gmap string string := {[ "region" := "us-east-1" ]} in
  is_Some (vars (walkInit invars tt) !! "var.region")
  /\ exists k, "var.region" = "var." +:+ k /\ is_Some (invars !! k).
Proof.
  intros invars.
  assert (is_Some (vars (walkInit invars tt) !! "var.region")) as Hk
    by (vm_compute; eauto).
  split; [exact Hk |].
  exact (proj1 (proj2 (X1_walkInit_user_variables invars tt)) "var.region" Hk).
Defined.

(** A scalar reference, [aws_instance.foo.id], is not an aggregate. *)
Lemma X2_witness :
  aggregateVar Ex.webCounts (IVResource (Ex.fooVariable "id")) Ex.webStore
  = (Ex.webStore, Returned tt).
Proof.
  apply X2_only_star_fields_are_aggregates.
  intros rv field [= <-]. discriminate.
Defined.

(** The load balancer refers to the ids of [aws_instance.web], whose count
    has not been recorded. *)
Lemma X3_witness :
  let w := walkInit ∅ State_init in
  ("aws_instance.web.*.id", IVResource Ex.webVariable)
    ∈ nodeVariables Ex.elbNoun
  /\ exists key,
       snd (genericWalkFn Ex.Interpolate (exApplyCb Ex.cPlain) Ex.elbNoun w)
       = Panicked (PanicNonExistent key)
       /\ counts w !! key = None.
Proof.
  intros w.
  assert (("aws_instance.web.*.id", IVResource Ex.webVariable)
            ∈ nodeVariables Ex.elbNoun) as Hin by (vm_compute; left).
  split; [exact Hin |].
  destruct (X3_aggregate_without_count_panics Ex.Interpolate
              (exApplyCb Ex.cPlain) Ex.elbNoun w "aws_instance.web.*.id"
              Ex.webVariable "id") as (key & Hp & Hk & _);
    [discriminate | reflexivity | exact Hin | reflexivity
    | vm_compute; reflexivity |].
  exists key. split; [exact Hp | exact Hk].
Defined.

(** The meta node of [aws_instance.web] records the count 3; the aggregate
    of the ids is then the join of the two ids that the store holds. *)
Lemma X4_witness :
  let w' := snd (fst (genericWalkFn Ex.Interpolate (exApplyCb Ex.cPlain)
                        Ex.webMetaNoun Ex.webWalk)) in
  counts w' !! "aws_instance.web" = Some 3
  /\ aggregateVar (counts w') (IVResource Ex.webVariable) (vars w')
     = (<[FullKey Ex.webVariable :=
            strings_Join (presentValues Ex.webStore Ex.webVariable "id" 3) ","]>
          Ex.webStore, Returned tt).
Proof.
  intros w'. split; [vm_compute; reflexivity |].
  destruct (X4_meta_count_then_aggregate Ex.Interpolate (exApplyCb Ex.cPlain)
              Ex.webMetaNoun Ex.webWalk Ex.webMeta Ex.webVariable "id")
    as (_ & _ & _ & _ & Hagg);
    [discriminate | reflexivity | reflexivity | reflexivity | reflexivity |].
  exact Hagg.
Defined.

(** The id of the first instance stays in the store when [foo] is applied. *)
Lemma X5_witness :
  is_Some (vars Ex.webWalk !! "aws_instance.web.0.id")
  /\ is_Some (vars (snd (fst (Walk (genericWalkFn Ex.Interpolate
                                      (exApplyCb Ex.cPlain))
                                [Ex.fooNoun] Ex.webWalk)))
              !! "aws_instance.web.0.id").
Proof.
  assert (is_Some (vars Ex.webWalk !! "aws_instance.web.0.id")) as Hk
    by (vm_compute; eauto).
  split; [exact Hk |].
  exact (proj1 (X5_walk_never_removes_keys Ex.Interpolate
                  (exApplyCb Ex.cPlain) [Ex.fooNoun] Ex.webWalk
                  "aws_instance.web.0.id") Hk).
Defined.

(** Plan visits the orphan [aws_instance.x]: a destroy-only diff is
    recorded, although the provider would diff to a change of [ami]. *)
Lemma X6_witness :
  let w := walkInit ∅ (planStart Ex.cPlain) in
  let rn' := fst (prepareResource Ex.Interpolate ∅ Ex.orphanMeta) in
  r_Config (gr_Resource rn') = None
  /\ snd (planWalkFn Ex.Interpolate Ex.Vars Ex.MergeDiff Ex.cPlain None
            Ex.orphanNoun w) = Returned None
  /\ p_Diff (result (snd (fst (planWalkFn Ex.Interpolate Ex.Vars Ex.MergeDiff
                                 Ex.cPlain None Ex.orphanNoun w))))
     = Some {| d_Resources := <["aws_instance.x" := destroyDiff]> ∅ |}.
Proof.
  intros w rn'.
  destruct (X6_orphan_is_planned_for_destroy Ex.Interpolate Ex.Vars
              Ex.MergeDiff Ex.cPlain None Ex.orphanNoun w Ex.orphanMeta rn' ∅
              {| d_Resources := ∅ |}) as (Hcfg & Hplan);
    [discriminate | reflexivity | reflexivity | reflexivity | reflexivity |].
  split; [exact Hcfg |].
  apply Hplan; [reflexivity | reflexivity | reflexivity | repeat constructor].
Defined.

(** Plan of [foo] and [bar], where the provider of [bar] fails: the entry of
    [foo] is not Empty and [foo] is a node of the graph. *)
Lemma X7_witness :
  let g := fst (Ex.Graph Ex.planNouns (planGraphOpts Ex.cPlan)) in
  let df := {| d_Resources := {[ "aws_instance.foo" := Ex.amiDiff ]} |} in
  p_Diff (result (snd (fst (exPlanWalk Ex.cPlan None g)))) = Some df
  /\ Empty (Some Ex.amiDiff) = false
  /\ resourceNodeOf g "aws_instance.foo".
Proof.
  intros g df.
  assert (p_Diff (result (snd (fst (exPlanWalk Ex.cPlan None g)))) = Some df)
    as Hp by (vm_compute; reflexivity).
  split; [exact Hp |].
  apply (X7_plan_diff_has_no_empty_entry Ex.Interpolate Ex.Vars Ex.MergeDiff
           Ex.cPlan None g df "aws_instance.foo" Ex.amiDiff Hp).
  vm_compute. reflexivity.
Defined.

(** A destroy plan over a state that holds [foo]. *)
Lemma X8_witness :
  let g := fst (Ex.Graph Ex.fooNouns (planGraphOpts Ex.cFoo)) in
  let opts := {| Destroy := true |} in
  let df := {| d_Resources := {[ "aws_instance.foo" := destroyDiff ]} |} in
  p_Diff (result (snd (fst (exPlanWalk Ex.cFoo (Some opts) g)))) = Some df
  /\ exists n rn, n ∈ g /\ Meta n = MetaResource rn /\
                  r_Id (gr_Resource rn) = "aws_instance.foo" /\
                  rs_ID (r_State (gr_Resource rn)) <> "".
Proof.
  intros g opts df.
  assert (p_Diff (result (snd (fst (exPlanWalk Ex.cFoo (Some opts) g))))
          = Some df) as Hp by (vm_compute; reflexivity).
  split; [exact Hp |].
  apply (X8_destroy_plan_holds_destroy_diffs Ex.Interpolate Ex.Vars
           Ex.MergeDiff Ex.cFoo g opts df "aws_instance.foo" destroyDiff
           eq_refl Hp).
  vm_compute. reflexivity.
Defined.

(** The failed Plan of [foo] and [bar] leaves the state of the Context
    alone; the plan holds the variables of the Context. *)
Lemma X9_witness :
  let out := exPlan (Ex.Graph Ex.planNouns) Ex.cPlan None in
  let g := fst (Ex.Graph Ex.planNouns (planGraphOpts Ex.cPlan)) in
  let p := result (snd (fst (exPlanWalk Ex.cPlan None g))) in
  snd out = Returned (Some p, Some (Errorf "diff failed"))
  /\ c_state (fst out) = c_state Ex.cPlan
  /\ p_Vars p = c_variables Ex.cPlan
  /\ c_diff (fst out) = p_Diff p.
Proof.
  intros out g p.
  assert (snd out = Returned (Some p, Some (Errorf "diff failed"))) as Hout
    by (vm_compute; reflexivity).
  split; [exact Hout |].
  destruct (X9_plan_changes_only_the_diff Ex.Interpolate Ex.Vars Ex.MergeDiff
              (Ex.Graph Ex.planNouns) Ex.cPlan None) as ((Hst & _) & Hplan).
  split; [exact Hst |].
  destruct (Hplan p _ Hout) as (_ & Hv & _ & Hd).
  split; [exact Hv | exact Hd].
Defined.

(** Apply over a Context whose diff for [foo] is Empty. *)
Lemma X10_witness :
  let g := fst (Ex.Graph Ex.fooNouns (applyGraphOpts Ex.cGone)) in
  Forall (fun n => forall rn, Meta n = MetaResource rn ->
                              Empty (r_Diff (gr_Resource rn)) = true) g
  /\ Resources (result (snd (fst (exApplyWalk Ex.cGone g))))
     = Resources Ex.priorGone.
Proof.
  intros g.
  assert (Forall (fun n => forall rn, Meta n = MetaResource rn ->
                                      Empty (r_Diff (gr_Resource rn)) = true) g)
    as Hall.
  { repeat constructor. intros rn [= <-]. vm_compute. reflexivity. }
  split; [exact Hall |].
  exact (proj1 (X10_apply_without_diff_keeps_resources Ex.Unknown
                  Ex.Interpolate Ex.Vars (Ex.Graph Ex.fooNouns) Ex.cGone g
                  eq_refl Hall)).
Defined.

(** The provider of [bar] fails in Apply: the walk ends at [bar] with the
    provider's error and [foo], which comes after it, is not visited. *)
Lemma X11_witness :
  let w := walkInit ∅ State_init in
  let rn' := fst (prepareResource Ex.Interpolate ∅ Ex.barMeta) in
  Walk (applyWalkFn Ex.Unknown Ex.Interpolate Ex.Vars Ex.cPlain)
       [Ex.barNoun; Ex.fooNoun] w
  = (([n_set_Meta (MetaResource rn') Ex.barNoun; Ex.fooNoun], w_set_vars ∅ w),
     Returned (Some (Errorf "apply failed"))).
Proof.
  intros w rn'.
  apply (X11_apply_provider_error_writes_nothing Ex.Unknown Ex.Interpolate
           Ex.Vars Ex.cPlain Ex.barNoun [Ex.fooNoun] w Ex.barMeta rn' ∅
           Ex.amiDiff (Errorf "apply failed"));
    [discriminate | reflexivity | reflexivity | reflexivity | reflexivity
    | reflexivity | vm_compute; reflexivity |].
  right. exists (Some Ex.amiDiff).
  split; [reflexivity |]. split; [repeat constructor | reflexivity].
Defined.

(** The output refers to the attribute [missing] of [foo], which [foo] does
    not have. *)
Lemma X12_witness :
  let raw := o_RawConfig (Ex.fooOutput "bad" "missing") in
  Resources Ex.fooOnly !! ResourceId (Ex.fooVariable "missing")
  = Some Ex.fooState
  /\ rs_Attributes Ex.fooState !! "missing" = None
  /\ computeVars Ex.Interpolate Ex.cFoo Ex.fooOnly raw
     = (raw, Some (Errorf ("Resource '" +:+ "aws_instance.foo" +:+
                           "' does not have attribute '" +:+ "missing" +:+
                           "' for variable '" +:+ "aws_instance.foo.missing" +:+
                           "'"))).
Proof.
  intros raw.
  assert (Resources Ex.fooOnly !! ResourceId (Ex.fooVariable "missing")
          = Some Ex.fooState) as Hr by (vm_compute; reflexivity).
  assert (rs_Attributes Ex.fooState !! "missing" = None) as Ha
    by (vm_compute; reflexivity).
  split; [exact Hr |]. split; [exact Ha |].
  destruct (X12_computeVars_first_missing Ex.Interpolate Ex.cFoo Ex.fooOnly raw
              [] [] "aws_instance.foo.missing" (Ex.fooVariable "missing"))
    as (_ & Hattr); [reflexivity | constructor |].
  exact (Hattr Ex.fooState Hr Ha).
Defined.

(** The configuration of the provider refers to the user variable
    [region], which the Context does not hold: it is bound to the empty
    string. *)
Lemma X13_witness :
  let raw := pc_RawConfig Ex.providerConfig in
  let vs := bindingsOf Ex.cPlain State_init (Variables raw) ∅ in
  Forall (fun nv => bindable State_init (snd nv)) (Variables raw)
  /\ computeVars Ex.Interpolate Ex.cPlain State_init raw
     = Ex.Interpolate raw vs
  /\ vs !! "var.region" = Some "".
Proof.
  intros raw vs.
  assert (Forall (fun nv => bindable State_init (snd nv)) (Variables raw))
    as Hall by (repeat constructor).
  destruct (X13_computeVars_bindings Ex.Interpolate Ex.cPlain State_init raw
              Hall) as (Hcv & _ & _ & Hnd).
  split; [exact Hall |]. split; [apply Hcv; discriminate |].
  destruct Hnd as [Huser _]; [repeat constructor; by apply not_elem_of_nil |].
  apply (Huser "var.region" "region" "var.region"). vm_compute. left.
Defined.

(** Three providers, the second of which fails to configure. *)
Lemma X14_witness :
  let w := walkInit ∅ State_init in
  snd (genericWalkFn Ex.Interpolate (exApplyCb Ex.cPlain) Ex.twoProvidersNoun w)
  = Returned (Some (Errorf "no credentials"))
  /\ exists pre kp post,
       gp_Providers Ex.twoProvidersMeta = (pre ++ kp :: post)%list /\
       Forall (fun kp => rp_Configure (snd kp) None = None) pre /\
       rp_Configure (snd kp) None = Some (Errorf "no credentials").
Proof.
  intros w.
  destruct (X14_provider_node_configures_in_order Ex.Interpolate
              (exApplyCb Ex.cPlain) Ex.twoProvidersNoun w Ex.twoProvidersMeta ∅)
    as (Hret & _ & _ & _ & _ & _ & Hfirst);
    [discriminate | reflexivity | reflexivity | reflexivity
    | intros cfg; discriminate |].
  split; [exact Hret |].
  apply (Hfirst (Errorf "no credentials")). reflexivity.
Defined.

(** The provider answers nil to the Refresh of [foo]: an empty state of the
    type of [foo] is installed. *)
Lemma X15_witness :
  let r := Ex.fooResource None (Ex.provider None None) in
  let rs := rs_set_Type "aws_instance" newResourceState in
  Forall (fun h => Ex.hookContinue h (r_Id r) (r_State r) = HookActionContinue)
         (c_hooks Ex.cPlain)
  /\ Resources (snd (fst (exRefreshCb Ex.cPlain (r, State_init)))) !! r_Id r
     = Some rs
  /\ rs_ID rs = "".
Proof.
  intros r rs.
  assert (Forall (fun h => Ex.hookContinue h (r_Id r) (r_State r)
                           = HookActionContinue) (c_hooks Ex.cPlain)) as Hpre
    by (repeat constructor).
  split; [exact Hpre |].
  destruct (X15_refresh_installs_provider_state Ex.refreshNil Ex.hookContinue
              Ex.hookContinue Ex.cPlain r State_init Hpre) as (Hok & _).
  destruct (Hok None eq_refl) as (Hres & _ & Hnil & _).
  split; [exact Hres |]. apply (Hnil eq_refl).
Defined.

(** Refresh over a prior state that holds [aws_instance.old], for which the
    graph has no node: the refreshed state does not hold it. *)
Lemma X16_witness :
  let g := fst (Ex.Graph Ex.fooNouns (refreshGraphOpts Ex.c1)) in
  let s' := result (snd (fst (exRefreshWalk Ex.c1 g))) in
  exRefresh Ex.c1 = (c_set_state (Some s') Ex.c1, Returned (Some s', None))
  /\ Outputs s' = None
  /\ (forall id, is_Some (Resources s' !! id) -> resourceNodeOf g id)
  /\ Resources s' !! "aws_instance.old" = None.
Proof.
  intros g s'.
  assert (exRefresh Ex.c1
          = (c_set_state (Some s') Ex.c1, Returned (Some s', None))) as HR
    by (vm_compute; reflexivity).
  split; [exact HR |].
  destruct (X16_refresh_starts_from_empty_state Ex.Interpolate
              (Ex.Graph Ex.fooNouns) Ex.refreshNil Ex.hookContinue
              Ex.hookContinue Ex.c1 g None eq_refl) as (_ & Hok).
  destruct (Hok eq_refl _ _ _ HR) as (s'' & [= <-] & _ & Hout & Hids).
  split; [exact Hout |]. split; [exact Hids |].
  vm_compute. reflexivity.
Defined.

(** A Context made by NewContext with one user hook, after Stop: the apply
    callback of [foo] halts before the provider is called. *)
Lemma X17_witness :
  let c := NewContext Ex.opts1 (stopHook true) in
  let r := Ex.fooResource (Some Ex.amiDiff)
             (Ex.provider (Some Ex.amiDiff) (Some Ex.fooState)) in
  c_hooks c = [Ex.noHook; stopHook true]
  /\ exApplyCb c (r, State_init) = ((r, State_init), Panicked PanicHalt).
Proof.
  intros c r.
  destruct (X17_armed_stop_hook_halts Ex.Unknown Ex.Interpolate Ex.Vars
              Ex.MergeDiff Ex.opts1) as (Hhooks & _ & Happly & _).
  split; [exact (Hhooks (stopHook true)) |].
  apply (Happly r State_init Ex.amiDiff (Some Ex.amiDiff));
    [reflexivity | vm_compute; reflexivity | reflexivity].
Defined.

(** The validation of [foo] reports one warning and one error, each with
    the id of [foo] in front. *)
Lemma X18_witness :
  snd (Walk exValidateWalkFn [Ex.fooNoun] ([], [])) = Returned None
  /\ snd (fst (exValidateWalkFn Ex.fooNoun ([], [])))
     = (["'aws_instance.foo' warning: ami is deprecated"],
        [Errorf "'aws_instance.foo' error: ami is required"]).
Proof.
  destruct (X18_validate_walk_never_aborts Ex.validateNothing
              Ex.validateResource Ex.providerNil Ex.errorString
              [Ex.fooNoun] ([], [])) as (Hret & _ & _ & Hnode).
  split; [exact Hret |].
  rewrite (Hnode Ex.fooNoun Ex.fooMeta);
    [reflexivity | left | discriminate | reflexivity | reflexivity].
Defined.

(** Apply of [foo] and [bar] over a prior state that holds
    [aws_instance.old], for which the graph has no node. *)
Lemma X19_witness :
  let g := fst (Ex.Graph Ex.twoNouns (applyGraphOpts Ex.c1)) in
  ~ resourceNodeOf g "aws_instance.old"
  /\ Resources (result (snd (fst (exApplyWalk Ex.c1 g)))) !! "aws_instance.old"
     = Some Ex.oldState.
Proof.
  intros g.
  assert (~ resourceNodeOf g "aws_instance.old") as Hnot.
  { intros (n & rn & Hin & Hm & Hid).
    apply list_elem_of_In in Hin. vm_compute in Hin.
    destruct Hin as [<- | [<- | []]]; injection Hm as <-; discriminate Hid. }
  split; [exact Hnot |].
  rewrite (proj1 (X19_apply_touches_only_graph_resources Ex.Unknown
                    Ex.Interpolate Ex.Vars (Ex.Graph Ex.twoNouns) Ex.c1 g
                    "aws_instance.old" Hnot)).
  vm_compute. reflexivity.
Defined.

(** [foo] is applied: its attribute [ami] is in the store afterwards. *)
Lemma X20_witness :
  let w := walkInit ∅ State_init in
  let rn' := fst (prepareResource Ex.Interpolate ∅ Ex.fooMeta) in
  let out := exApplyCb Ex.cPlain (gr_Resource rn', result w) in
  let newVars : gmap string string := {[ "aws_instance.foo.ami" := "ami-123" ]} in
  out = ((fst (fst out), snd (fst out)), Returned (newVars, None))
  /\ vars (snd (fst (genericWalkFn Ex.Interpolate (exApplyCb Ex.cPlain)
                       Ex.fooNoun w))) !! "aws_instance.foo.ami"
     = Some "ami-123".
Proof.
  intros w rn' out newVars.
  assert (out = ((fst (fst out), snd (fst out)), Returned (newVars, None)))
    as Hcb by (vm_compute; reflexivity).
  split; [exact Hcb |].
  destruct (X20_node_exports_variables Ex.Interpolate (exApplyCb Ex.cPlain)
              Ex.fooNoun w ∅ newVars Ex.fooMeta rn' (fst (fst out))
              (snd (fst out))) as (_ & _ & _ & Hnew & _);
    [discriminate | reflexivity | reflexivity | reflexivity | reflexivity
    | exact Hcb |].
  apply Hnew. vm_compute. reflexivity.
Defined.
